(** * MyQuoteMate: the request handler of [app.py], embedded and verified

    The development follows the source file:

    - [PyStr]    the operations of Python's [str] that the handler uses
                 ([strip], [lower], [rsplit], [join], the [in] test) and the
                 one regular-expression substitution of the extractor;
    - [Effects]  the handler's collaborators (upload storage, pypdf, the
                 process environment, the OpenAI client, the clock) as a
                 record of oracles, and a small exception-and-trace monad;
    - the functions of [app.py]: [allowed_file], [try_extract_pdf_text] and
                 [index], the latter cut at its early returns into
                 [upload_block], [after_upload] and [call_model];
    - [Template] the Jinja structure of the page [HTML];
    - the theorems about them, and sample runs.

    A Python [str] is a [string] whose characters are the code points
    U+0000..U+00FF. *)

From Stdlib Require Import List Ascii String Bool Arith NArith Lia.
From Stdlib Require Import DecimalString.
Import ListNotations.
Open Scope string_scope.

(* ------------------------------------------------------------------ *)
(** ** Python string operations *)

Module PyStr.

(** [str.isspace] on one character: the ASCII table of CPython
    (TAB..CR, FS..US, SPACE) and, above it, NEL (U+0085) and NBSP (U+00A0). *)
Definition isspace (c : ascii) : bool :=
  let n := N_of_ascii c in
  ((9 <=? n) && (n <=? 13) || (28 <=? n) && (n <=? 32)
   || (n =? 133) || (n =? 160))%N.

(** [s.lstrip()] *)
Fixpoint lstrip (s : string) : string :=
  match s with
  | EmptyString => EmptyString
  | String c s' => if isspace c then lstrip s' else s
  end.

(** [s.rstrip()] *)
Fixpoint rstrip (s : string) : string :=
  match s with
  | EmptyString => EmptyString
  | String c s' =>
      match rstrip s' with
      | EmptyString => if isspace c then EmptyString else String c EmptyString
      | r => String c r
      end
  end.

(** [s.strip()] *)
Definition strip (s : string) : string := lstrip (rstrip s).

(** Truth value of a string: non-empty. *)
Definition truthy (s : string) : bool :=
  match s with EmptyString => false | String _ _ => true end.

(** [x or d] for an optional string [x] ([None] and [""] are both falsy). *)
Definition or_else (x : option string) (d : string) : string :=
  match x with
  | Some s => if truthy s then s else d
  | None => d
  end.

(** [s or d] for a string [s]. *)
Definition str_or (s d : string) : string := if truthy s then s else d.

(** [c.lower()] on one character: A..Z and the upper-case letters of
    U+00C0..U+00DE (the multiplication sign U+00D7 apart) move up by 32. *)
Definition lower_char (c : ascii) : ascii :=
  let n := N_of_ascii c in
  if ((65 <=? n) && (n <=? 90)
      || (192 <=? n) && (n <=? 222) && negb (n =? 215))%N
  then ascii_of_N (n + 32) else c.

(** [s.lower()] *)
Fixpoint lower (s : string) : string :=
  match s with
  | EmptyString => EmptyString
  | String c s' => String (lower_char c) (lower s')
  end.

(** [c in s] for a one-character needle. *)
Fixpoint contains_char (c : ascii) (s : string) : bool :=
  match s with
  | EmptyString => false
  | String a s' => Ascii.eqb a c || contains_char c s'
  end.

(** The split point of [s.rsplit(c, 1)]: the text before and after the last
    occurrence of [c], when there is one. *)
Fixpoint rsplit_last (c : ascii) (s : string) : option (string * string) :=
  match s with
  | EmptyString => None
  | String a s' =>
      match rsplit_last c s' with
      | Some (pre, post) => Some (String a pre, post)
      | None => if Ascii.eqb a c then Some (EmptyString, s') else None
      end
  end.

(** [s.rsplit(c, 1)]: a list of one or two strings. *)
Definition rsplit1 (c : ascii) (s : string) : list string :=
  match rsplit_last c s with
  | Some (pre, post) => [pre; post]
  | None => [s]
  end.

(** [sep.join(parts)] *)
Fixpoint join (sep : string) (parts : list string) : string :=
  match parts with
  | [] => EmptyString
  | [p] => p
  | p :: rest => p ++ sep ++ join sep rest
  end.

(** [x in xs] for a set of strings given by its elements. *)
Definition mem (x : string) (xs : list string) : bool :=
  existsb (String.eqb x) xs.

Definition nl : ascii := "010"%char.

(** [n] newline characters. *)
Fixpoint newlines (n : nat) : string :=
  match n with
  | O => EmptyString
  | S n' => String nl (newlines n')
  end.

(** What a maximal run of [run] newlines becomes under
    [re.sub(r"\n{3,}", "\n\n", _)]: the pattern matches the whole run when it
    has three or more characters (the match starts at the run's first
    character and is greedy), and nothing inside a shorter run. *)
Definition flush (run : nat) : string :=
  if (3 <=? run)%nat then newlines 2 else newlines run.

(** The scan of [re.sub(r"\n{3,}", "\n\n", s)], with the length [run] of the
    run of newlines read so far. *)
Fixpoint collapse_from (run : nat) (s : string) : string :=
  match s with
  | EmptyString => flush run
  | String c s' =>
      if Ascii.eqb c nl then collapse_from (S run) s'
      else flush run ++ String c (collapse_from 0 s')
  end.

(** [re.sub(r"\n{3,}", "\n\n", s)] *)
Definition re_sub_newlines (s : string) : string := collapse_from 0 s.

(** [s.split("\n")]: the lines of [s]; always at least one. *)
Fixpoint lines (s : string) : list string :=
  match s with
  | EmptyString => [EmptyString]
  | String c s' =>
      if Ascii.eqb c nl then EmptyString :: lines s'
      else match lines s' with
           | l :: ls => String c l :: ls
           | [] => [String c EmptyString]
           end
  end.

End PyStr.

Import PyStr.

(* ------------------------------------------------------------------ *)
(** ** Collaborators, exceptions and the trace of external calls *)

Module Effects.

(** An exception derived from [Exception], with its description [str(e)]. *)
Record Exn : Type := MkExn { exn_str : string }.

(** The result of a call that may raise. *)
Inductive outcome (A : Type) : Type :=
| Ok (a : A)
| Raise (e : Exn).
Arguments Ok {A} a.
Arguments Raise {A} e.

(** The calls that leave the handler's own code. *)
Inductive Event : Type :=
| ESave (save_path : string)                 (* f.save(save_path) *)
| EImportPypdf                               (* import pypdf *)
| EPdfReader (path : string)                 (* pypdf.PdfReader(path) *)
| EGetenv (name : string)                    (* os.getenv(name) *)
| EOpenAI (api_key : string)                 (* OpenAI(api_key=...) *)
| ECreate (model system user : string).      (* client.responses.create(...) *)

(** A computation: its result or the exception it raised, and the external
    calls it made, oldest first. *)
Definition M (A : Type) : Type := (outcome A * list Event)%type.

Definition ret {A} (a : A) : M A := (Ok a, []).

Definition bind {A B} (m : M A) (k : A -> M B) : M B :=
  match m with
  | (Ok a, t) => let '(r, t') := k a in (r, (t ++ t')%list)
  | (Raise e, t) => (Raise e, t)
  end.

(** [try: body / except Exception as e: handler e] *)
Definition try_except {A} (body : M A) (handler : Exn -> M A) : M A :=
  match body with
  | (Ok a, t) => (Ok a, t)
  | (Raise e, t) => let '(r, t') := handler e in (r, (t ++ t')%list)
  end.

(** An external call: logged, then answered by the collaborator. *)
Definition call {A} (ev : Event) (answer : outcome A) : M A := (answer, [ev]).

(** A value obtained from an object already in hand, which may raise. *)
Definition lift {A} (answer : outcome A) : M A := (answer, []).

Definition result_of {A} (m : M A) : outcome A := fst m.
Definition trace_of {A} (m : M A) : list Event := snd m.

(** An uploaded file part (werkzeug's [FileStorage]). *)
Record FileStorage : Type := MkFile { filename : string; stream : string }.

(** [bool(f)] for a [FileStorage]: the truth value of its filename. *)
Definition file_truthy (f : FileStorage) : bool := truthy (filename f).

Inductive Method : Type := GET | POST.

(** The request once the framework has parsed it: [request.method],
    [request.form.get] and [request.files.get]. Reading [request.form] has
    succeeded; a body over [MAX_CONTENT_LENGTH] (line 11) is turned down by
    the framework at that point and never becomes a [Request]. *)
Record Request : Type := MkRequest {
  method : Method;
  form_get : string -> option string;
  files_get : string -> option FileStorage
}.

(** A page of a PDF: what [page.extract_text()] does, a string, [None] or an
    exception. *)
Definition Page : Type := outcome (option string).

(** Everything outside the handler's code, as it answers during one
    request. *)
Record World : Type := MkWorld {
  secure_filename : string -> string;            (* werkzeug.utils *)
  save : FileStorage -> string -> outcome unit;  (* f.save(path) *)
  import_pypdf : outcome unit;                   (* import pypdf *)
  PdfReader : string -> outcome (list Page);     (* pypdf.PdfReader(path).pages *)
  getenv : string -> option string;              (* os.getenv *)
  OpenAI : string -> outcome unit;               (* OpenAI(api_key=...) *)
  responses_create : string -> string -> string -> outcome string;
                                                 (* resp.output_text of
                                                    client.responses.create *)
  utcnow_year : nat;                             (* datetime.utcnow().year *)
  utcnow_strftime : string -> string             (* datetime.utcnow().strftime *)
}.

(** The keyword arguments of a [render_template_string(HTML, ...)] call: the
    response of the handler. [generated_at] is passed on success only. *)
Record Response : Type := MkResponse {
  result : option string;
  error : option string;
  quote_text : string;
  location : string;
  generated_at : option string;
  year : nat
}.

End Effects.

Import Effects.

Declare Scope py_scope.
Delimit Scope py_scope with py.
Notation "x <- m ;; k" := (bind m (fun x => k))
  (at level 61, m at next level, right associativity) : py_scope.
Notation "m ;; k" := (bind m (fun _ => k))
  (at level 61, right associativity) : py_scope.
Open Scope py_scope.

(* ------------------------------------------------------------------ *)
(** ** app.py *)

(** The newline character as a string. *)
Definition NL : string := String nl EmptyString.

Definition UPLOAD_FOLDER : string := "uploads".

Definition ALLOWED_EXTENSIONS : list string := ["pdf"].

(** [allowed_file]. The index [[1]] of the split is defined whenever the
    first conjunct holds ([rsplit_index_defined] below); the [None] branch
    stands for the [IndexError] that the guard excludes. *)
Definition allowed_file (filename : string) : bool :=
  contains_char "." filename
  && match nth_error (rsplit1 "." filename) 1 with
     | Some ext => mem (lower ext) ALLOWED_EXTENSIONS
     | None => false
     end.

(** The loop over [reader.pages], with the list [parts] built so far. *)
Fixpoint collect_parts (pages : list Page) (parts : list string)
  : M (list string) :=
  match pages with
  | [] => ret parts
  | page :: rest =>
      extracted <- lift page ;;
      let txt := or_else extracted "" in
      collect_parts rest (if truthy (strip txt) then (parts ++ [txt])%list else parts)
  end.

(** The body of the [try] block of [try_extract_pdf_text]. *)
Definition extract_body (w : World) (path : string) : M string :=
  call EImportPypdf (import_pypdf w) ;;
  pages <- call (EPdfReader path) (PdfReader w path) ;;
  parts <- collect_parts pages [] ;;
  let text := strip (join NL parts) in
  let text := re_sub_newlines text in
  ret text.

(** [try_extract_pdf_text] *)
Definition try_extract_pdf_text (w : World) (path : string) : M string :=
  try_except (extract_body w path) (fun _ => ret "").

(** [os.path.join(a, b)] on POSIX. *)
Definition starts_with_slash (s : string) : bool :=
  match s with
  | String c _ => Ascii.eqb c "/"
  | EmptyString => false
  end.

Fixpoint ends_with_slash (s : string) : bool :=
  match s with
  | EmptyString => false
  | String c EmptyString => Ascii.eqb c "/"
  | String _ s' => ends_with_slash s'
  end.

Definition path_join (a b : string) : string :=
  if starts_with_slash b then b
  else if negb (truthy a) || ends_with_slash a then a ++ b
  else a ++ "/" ++ b.

(** [render_template_string(HTML, result=..., error=..., quote_text=...,
    location=..., year=datetime.utcnow().year)] *)
Definition render (w : World) (res err : option string)
  (quote_text location : string) (generated_at : option string) : Response :=
  MkResponse res err quote_text location generated_at (utcnow_year w).

Definition MSG_ONLY_PDF : string := "Only PDF files are allowed.".
Definition MSG_PASTE : string :=
  "Please paste quote text. PDF upload is optional, and scanned PDFs may not be readable.".
Definition MSG_NO_KEY : string := "Server is missing OPENAI_API_KEY.".
Definition MSG_AI_FAILED : string := "AI request failed: ".
Definition MODEL : string := "gpt-4.1-mini".

(** The f-string [user_payload]. *)
Definition user_payload (trade location quote_text pdf_text : string) : string :=
  "Trade: " ++ str_or trade "Not provided" ++ NL
  ++ "Location: " ++ str_or location "Not provided" ++ NL
  ++ NL
  ++ "QUOTE TEXT:" ++ NL
  ++ (if truthy quote_text then quote_text else "(not provided)") ++ NL
  ++ NL
  ++ "PDF EXTRACTED TEXT:" ++ NL
  ++ (if truthy pdf_text then pdf_text
      else "(no readable text extracted from PDF)").

(** How the upload block of [index] ends: with a [return], or by falling
    through to the validation with a value of [pdf_text]. *)
Inductive flow : Type :=
| Returned (page : Response)
| Fell (pdf_text : string).

Section Handler.

(** The system instruction [SYSTEM_PROMPT], a constant that the handler hands
    to the completion service unread. *)
Variable SYSTEM_PROMPT : string.

(** Lines 284-294 of [index]. *)
Definition upload_block (w : World) (req : Request)
  (quote_text location : string) : M flow :=
  match files_get req "quote_pdf" with
  | Some f =>
      if file_truthy f && truthy (filename f) then
        if negb (allowed_file (filename f)) then
          ret (Returned (render w None (Some MSG_ONLY_PDF)
                                quote_text location None))
        else
          let filename := secure_filename w (filename f) in
          let save_path := path_join UPLOAD_FOLDER filename in
          call (ESave save_path) (save w f save_path) ;;
          pdf_text <- try_extract_pdf_text w save_path ;;
          ret (Fell pdf_text)
      else ret (Fell "")
  | None => ret (Fell "")
  end.

(** Lines 323-344 of [index]: the completion call and its [except]. *)
Definition call_model (w : World) (quote_text location user : string)
  : M Response :=
  try_except
    (output_text <- call (ECreate MODEL SYSTEM_PROMPT user)
                         (responses_create w MODEL SYSTEM_PROMPT user) ;;
     let res := strip output_text in
     ret (render w (Some res) None quote_text location
                 (Some (utcnow_strftime w "%Y-%m-%d %H:%M UTC"))))
    (fun e =>
       ret (render w None (Some (MSG_AI_FAILED ++ exn_str e))
                   quote_text location None)).

(** Lines 296-344 of [index]: from the validation on. *)
Definition after_upload (w : World)
  (trade location quote_text pdf_text : string) : M Response :=
  if negb (truthy quote_text) && negb (truthy pdf_text) then
    ret (render w None (Some MSG_PASTE) quote_text location None)
  else
    key <- call (EGetenv "OPENAI_API_KEY") (Ok (getenv w "OPENAI_API_KEY")) ;;
    let api_key := strip (or_else key "") in
    if negb (truthy api_key) then
      ret (render w None (Some MSG_NO_KEY) quote_text location None)
    else
      call (EOpenAI api_key) (OpenAI w api_key) ;;
      call_model w quote_text location
                 (user_payload trade location quote_text pdf_text).

(** [index] *)
Definition index (w : World) (req : Request) : M Response :=
  match method req with
  | GET => ret (render w None None "" "" None)
  | POST =>
      let trade := strip (or_else (form_get req "trade") "") in
      let location := strip (or_else (form_get req "location") "") in
      let quote_text := strip (or_else (form_get req "quote_text") "") in
      fl <- upload_block w req quote_text location ;;
      match fl with
      | Returned page => ret page
      | Fell pdf_text => after_upload w trade location quote_text pdf_text
      end
  end.

End Handler.

(* ------------------------------------------------------------------ *)
(** ** Specification-side notions *)

(** The claim's reading of the file-name test: the name is some stem, a dot,
    and the three letters p, d, f in either case. *)
Definition pdf_suffix (name : string) : Prop :=
  exists stem p d f,
    name = stem ++ String "." (String p (String d (String f EmptyString)))
    /\ (p = "p" \/ p = "P")%char
    /\ (d = "d" \/ d = "D")%char
    /\ (f = "f" \/ f = "F")%char.

(** Every character of [s] is whitespace. *)
Fixpoint all_space (s : string) : bool :=
  match s with
  | EmptyString => true
  | String c s' => isspace c && all_space s'
  end.

(** The credential is absent: unset, or set to whitespace only. *)
Definition credential_absent (w : World) : Prop :=
  getenv w "OPENAI_API_KEY" = None
  \/ exists s, getenv w "OPENAI_API_KEY" = Some s /\ all_space s = true.

(** The request with its [quote_pdf] file part removed. *)
Definition without_file (req : Request) : Request :=
  MkRequest (method req) (form_get req)
            (fun name => if String.eqb name "quote_pdf" then None
                         else files_get req name).

(** The three trimmed form fields, as [index] computes them. *)
Definition trade_of (req : Request) : string :=
  strip (or_else (form_get req "trade") "").
Definition location_of (req : Request) : string :=
  strip (or_else (form_get req "location") "").
Definition quote_text_of (req : Request) : string :=
  strip (or_else (form_get req "quote_text") "").

(** The path under which [index] stores an upload. *)
Definition save_path_of (w : World) (f : FileStorage) : string :=
  path_join UPLOAD_FOLDER (secure_filename w (filename f)).

(** The completion service is called somewhere in a trace. *)
Definition calls_model (t : list Event) : Prop :=
  exists m s u, In (ECreate m s u) t.

(** The completion client is constructed somewhere in a trace. *)
Definition builds_client (t : list Event) : Prop :=
  exists k, In (EOpenAI k) t.

(** pypdf is reached somewhere in a trace. *)
Definition extracts_pdf (t : list Event) : Prop :=
  In EImportPypdf t \/ exists p, In (EPdfReader p) t.

(** A file is stored somewhere in a trace. *)
Definition saves_file (t : list Event) : Prop :=
  exists p, In (ESave p) t.

(** The events that the upload block can produce. *)
Definition upload_event (ev : Event) : bool :=
  match ev with
  | ESave _ | EImportPypdf | EPdfReader _ => true
  | _ => false
  end.

(** The events that the rest of [index] can produce. *)
Definition model_event (ev : Event) : bool :=
  match ev with
  | EGetenv _ | EOpenAI _ | ECreate _ _ _ => true
  | _ => false
  end.

(** A field of the user message as the claim words it: the value, or the
    placeholder when the value is empty. *)
Definition or_placeholder (value placeholder : string) : string :=
  if String.eqb value "" then placeholder else value.

(** [needle] occurs in [s]. *)
Definition occurs_in (needle s : string) : Prop :=
  exists pre post, s = pre ++ needle ++ post.

(** The first and the last character of a string. *)
Definition first_char (s : string) : option ascii :=
  match s with
  | EmptyString => None
  | String c _ => Some c
  end.

Fixpoint last_char (s : string) : option ascii :=
  match s with
  | EmptyString => None
  | String c EmptyString => Some c
  | String _ s' => last_char s'
  end.



(** No three newlines in a row in [s], after [k] newlines already read. *)
Fixpoint no3_from (k : nat) (s : string) : bool :=
  match s with
  | EmptyString => true
  | String c s' =>
      if Ascii.eqb c nl then (S k <? 3)%nat && no3_from (S k) s'
      else no3_from 0 s'
  end.



(** The page texts that the extractor keeps, in document order: [None]
    counts as the empty text, and texts of whitespace only are dropped. *)
Definition kept_texts (texts : list (option string)) : list string :=
  filter (fun txt => truthy (strip txt))
         (map (fun extracted => or_else extracted "") texts).

(** pypdf opens the file at [path] and yields [texts], one per page. *)
Definition readable (w : World) (path : string)
  (texts : list (option string)) : Prop :=
  import_pypdf w = Ok tt /\ PdfReader w path = Ok (map Ok texts).

(** The extraction as claim C7 words it: the kept page texts with one blank
    line (two newlines) between consecutive pages, trimmed. *)
Definition blank_line_joined (texts : list (option string)) : string :=
  strip (join (NL ++ NL) (kept_texts texts)).

(* ------------------------------------------------------------------ *)
(** ** The template [HTML] *)

Module Template.

(** The names that the template reads. *)
Inductive Var : Type :=
| v_location | v_quote_text | v_error | v_result | v_generated_at | v_year.

#[local] Set Warnings "-register-all".

(** The template as Jinja sees it: literal markup (given by the source lines
    it spans), [{{ v }}], [{{ v or default }}] and
    [{% if v %} .. {% else %} .. {% endif %}]. *)
Inductive Node : Type :=
| Markup (first last : nat)
| Print (v : Var)
| PrintOr (v : Var) (default : string)
| IfElse (v : Var) (yes no : list Node).

(** The values of the context. [Undefined] is a name that was not passed. *)
Inductive Value : Type :=
| PyNone
| PyStr (s : string)
| PyInt (n : nat)
| Undefined.

(** The rendered page: literal markup and printed (escaped) text. *)
Inductive Chunk : Type :=
| Lit (first last : nat)
| Out (text : string).

(** [HTML], lines 44-254: the form with its two value slots, the error box,
    the result box and the footer. *)
Definition HTML : list Node :=
  [ Markup 44 174; PrintOr v_location "";
    Markup 174 182; PrintOr v_quote_text "";
    Markup 182 205;
    IfElse v_error [Markup 205 207; Print v_error; Markup 207 209] [];
    Markup 209 216;
    IfElse v_result
      [Markup 216 218; Print v_result; Markup 218 221;
       Print v_generated_at; Markup 221 223]
      [Markup 223 227];
    Markup 227 249; Print v_year; Markup 249 254 ].

Definition of_option (x : option string) : Value :=
  match x with
  | Some s => PyStr s
  | None => PyNone
  end.

(** The context that the keyword arguments make. *)
Definition lookup (ctx : Response) (v : Var) : Value :=
  match v with
  | v_location => PyStr (location ctx)
  | v_quote_text => PyStr (quote_text ctx)
  | v_error => of_option (error ctx)
  | v_result => of_option (result ctx)
  | v_generated_at =>
      match generated_at ctx with
      | Some s => PyStr s
      | None => Undefined
      end
  | v_year => PyInt (year ctx)
  end.

Definition value_truthy (x : Value) : bool :=
  match x with
  | PyStr s => truthy s
  | PyInt n => negb (n =? 0)%nat
  | PyNone | Undefined => false
  end.

(** [markupsafe.escape] on one character and on a string. *)
Definition escape_char (c : ascii) : string :=
  if Ascii.eqb c "&" then "&amp;"
  else if Ascii.eqb c "<" then "&lt;"
  else if Ascii.eqb c ">" then "&gt;"
  else if Ascii.eqb c "'" then "&#39;"
  else if Ascii.eqb c "034" then "&#34;"
  else String c EmptyString.

Fixpoint escape (s : string) : string :=
  match s with
  | EmptyString => EmptyString
  | String c s' => escape_char c ++ escape s'
  end.

(** What [{{ x }}] prints, with autoescaping. *)
Definition print_value (x : Value) : string :=
  match x with
  | PyStr s => escape s
  | PyInt n => NilZero.string_of_uint (Nat.to_uint n)
  | PyNone => "None"
  | Undefined => ""
  end.

Fixpoint render_node (ctx : Response) (n : Node) : list Chunk :=
  match n with
  | Markup first last => [Lit first last]
  | Print v => [Out (print_value (lookup ctx v))]
  | PrintOr v default =>
      let x := lookup ctx v in
      [Out (print_value (if value_truthy x then x else PyStr default))]
  | IfElse v yes no =>
      flat_map (render_node ctx) (if value_truthy (lookup ctx v) then yes else no)
  end.

(** [render_template_string(template, **ctx)] *)
Definition render_template_string (template : list Node) (ctx : Response)
  : list Chunk :=
  flat_map (render_node ctx) template.

End Template.

Import Template.

(** The page that a response of [index] is. *)
Definition page_of (ctx : Response) : list Chunk :=
  render_template_string HTML ctx.

(** The claim that a page shows the trade entered: some reading of the error
    pages gives the trade back. *)
Definition echoes_trade (shown : list Chunk -> string) : Prop :=
  forall SP w req page,
    method req = POST ->
    result_of (index SP w req) = Ok page ->
    error page <> None ->
    shown (page_of page) = trade_of req.

(** A sample deployment for the examples: uploads are stored under the name
    sent, pypdf answers [pages], the environment holds [key], the completion
    service answers [answer]. *)
Definition sample_world (pages : outcome (list Page)) (key : option string)
  (answer : outcome string) : World :=
  MkWorld (fun name => name)
          (fun _ _ => Ok tt)
          (Ok tt)
          (fun _ => pages)
          (fun name => if String.eqb name "OPENAI_API_KEY" then key else None)
          (fun _ => Ok tt)
          (fun _ _ _ => answer)
          2026
          (fun _ => "2026-11-04 09:30 UTC").

(** A sample POST: the three form fields and an optional file part. *)
Definition sample_post (trade location quote_text : string)
  (file : option FileStorage) : Request :=
  MkRequest POST
    (fun name =>
       if String.eqb name "trade" then Some trade
       else if String.eqb name "location" then Some location
       else if String.eqb name "quote_text" then Some quote_text
       else None)
    (fun name => if String.eqb name "quote_pdf" then file else None).

Definition sample_prompt : string := "You are MyQuoteMate.".

(** Sample runs. *)
Definition world_ok : World :=
  sample_world (Ok []) (Some "sk-test") (Ok " 1. Verdict: Looks reasonable ").

Definition world_blank_key : World :=
  sample_world (Ok []) (Some "   ") (Ok "unused").

Definition world_upstream_down : World :=
  sample_world (Ok []) (Some "sk-test") (Raise (MkExn "Connection error.")).

Definition world_broken_pdf : World :=
  sample_world (Raise (MkExn "EOF marker not found")) (Some "sk-test")
               (Ok "unused").

Definition world_gappy_pdf : World :=
  sample_world (Ok [Ok (Some ("Total" ++ newlines 4 ++ "GST"))])
               (Some "sk-test") (Ok "unused").

Definition world_two_pages : World :=
  sample_world (Ok [Ok (Some "A"); Ok None; Ok (Some "B")]) (Some "sk-test")
               (Ok "unused").

Definition post_blank_text : Request :=
  sample_post "Plumbing" "Hobart TAS" "   " None.

Definition post_text : Request :=
  sample_post "Plumbing" " Hobart TAS " "Replace tap, $240 incl GST" None.

Definition post_txt_file : Request :=
  sample_post "Plumbing" "Hobart TAS" "Replace tap"
              (Some (MkFile "quote.txt" "plain text")).

Definition post_pdf_file : Request :=
  sample_post "Plumbing" "Hobart TAS" "Replace tap"
              (Some (MkFile "quote.PDF" "%PDF-1.7")).

Definition post_unnamed_file : Request :=
  sample_post "Plumbing" "Hobart TAS" "Replace tap" (Some (MkFile "" "")).

(* ------------------------------------------------------------------ *)
(** ** Further notions, for the properties beyond the claims *)

(** The lines of [s] that hold text, in order. *)
Definition text_lines (s : string) : list string :=
  filter truthy (lines s).

(** A page that the extractor's loop skips: [None], empty or whitespace. *)
Definition blank_page (extracted : option string) : bool :=
  negb (truthy (strip (or_else extracted ""))).

(** The external calls of a request in the order of the source: those of the
    upload block, and those of the rest of [index]. *)
Definition upload_calls (path : string) : list Event :=
  [ESave path; EImportPypdf; EPdfReader path].

Definition model_calls (SP key user : string) : list Event :=
  [EGetenv "OPENAI_API_KEY"; EOpenAI key; ECreate MODEL SP user].

(** The credential as [index] reads it. *)
Definition api_key_of (w : World) : string :=
  strip (or_else (getenv w "OPENAI_API_KEY") "").

(** More sample runs. *)
Definition world_disk_full : World :=
  MkWorld (fun name => name)
          (fun _ _ => Raise (MkExn "No space left on device"))
          (Ok tt) (fun _ => Ok [])
          (fun name => if String.eqb name "OPENAI_API_KEY"
                       then Some "sk-test" else None)
          (fun _ => Ok tt) (fun _ _ _ => Ok "unused")
          2026 (fun _ => "2026-11-04 09:30 UTC").

Definition world_bad_page : World :=
  sample_world (Ok [Ok (Some "Page one"); Raise (MkExn "bad xref")])
               (Some "sk-test") (Ok "unused").

Definition world_scanned : World :=
  sample_world (Ok [Ok None; Ok (Some "  "); Ok (Some "")])
               (Some "sk-test") (Ok "unused").

Definition world_blank_answer : World :=
  sample_world (Ok []) (Some "sk-test") (Ok "   ").


Definition world_pdf_and_service_fail : World :=
  sample_world (Raise (MkExn "EOF marker not found")) (Some "sk-test")
               (Raise (MkExn "Connection error.")).

Definition post_pdf_only : Request :=
  sample_post "" "" "" (Some (MkFile "quote.pdf" "%PDF-1.7")).

(* ------------------------------------------------------------------ *)
(** ** Strings: trimming, case, splitting *)

Lemma strip_all_space (s : string) : all_space s = true -> strip s = "".
Proof.
  unfold strip. intros H.
  assert (R : rstrip s = "").
  { induction s as [|c s IH]; simpl in *; [reflexivity|].
    apply andb_prop in H as [Hc Hs]. rewrite (IH Hs), Hc. reflexivity. }
  rewrite R. reflexivity.
Qed.

Lemma rstrip_empty (s : string) : rstrip s = "" -> all_space s = true.
Proof.
  induction s as [|c s IH]; simpl; [reflexivity|].
  destruct (rstrip s) eqn:R; [|discriminate].
  destruct (isspace c); [|discriminate].
  intros _. simpl. apply IH. reflexivity.
Qed.

Lemma lstrip_empty (s : string) : lstrip s = "" -> all_space s = true.
Proof.
  induction s as [|c s IH]; simpl; [reflexivity|].
  destruct (isspace c); [|discriminate]. exact IH.
Qed.

Lemma rstrip_last_not_space (s : string) :
  forall c r, rstrip s = String c r -> all_space (rstrip s) = false.
Proof.
  induction s as [|a s IH]; simpl; [discriminate|].
  intros c r. destruct (rstrip s) as [|b t] eqn:R.
  - destruct (isspace a) eqn:Ha; [discriminate|]. intros _. simpl.
    rewrite Ha. reflexivity.
  - intros _. change (all_space (String a (String b t)))
      with (isspace a && all_space (String b t)).
    rewrite (IH b t eq_refl). apply andb_false_r.
Qed.

Lemma strip_empty_all_space (s : string) : strip s = "" -> all_space s = true.
Proof.
  unfold strip. intros H. apply rstrip_empty.
  destruct (rstrip s) as [|c r] eqn:R; [reflexivity|].
  apply lstrip_empty in H. rewrite <- R in H.
  rewrite (rstrip_last_not_space s c r R) in H. discriminate.
Qed.

Lemma lower_char_p (c : ascii) :
  lower_char c = "p"%char -> (c = "p" \/ c = "P")%char.
Proof.
  destruct c as [[] [] [] [] [] [] [] []]; vm_compute; intros H;
    first [discriminate H | now left | now right].
Qed.

Lemma lower_char_d (c : ascii) :
  lower_char c = "d"%char -> (c = "d" \/ c = "D")%char.
Proof.
  destruct c as [[] [] [] [] [] [] [] []]; vm_compute; intros H;
    first [discriminate H | now left | now right].
Qed.

Lemma lower_char_f (c : ascii) :
  lower_char c = "f"%char -> (c = "f" \/ c = "F")%char.
Proof.
  destruct c as [[] [] [] [] [] [] [] []]; vm_compute; intros H;
    first [discriminate H | now left | now right].
Qed.

Lemma lower_pdf (ext : string) :
  lower ext = "pdf" <->
  exists p d f, ext = String p (String d (String f EmptyString))
    /\ (p = "p" \/ p = "P")%char /\ (d = "d" \/ d = "D")%char
    /\ (f = "f" \/ f = "F")%char.
Proof.
  split.
  - destruct ext as [|p [|d [|f [|x t]]]]; simpl; try discriminate.
    intros H. injection H as Hp Hd Hf.
    exists p, d, f. repeat split;
      auto using lower_char_p, lower_char_d, lower_char_f.
  - intros (p & d & f & -> & Hp & Hd & Hf).
    destruct Hp as [-> | ->], Hd as [-> | ->], Hf as [-> | ->]; reflexivity.
Qed.

Lemma rsplit_last_sound (c : ascii) (s : string) :
  forall pre post, rsplit_last c s = Some (pre, post) ->
    s = pre ++ String c post /\ contains_char c post = false.
Proof.
  induction s as [|a s IH]; simpl; [discriminate|].
  intros pre post. destruct (rsplit_last c s) as [[p q]|] eqn:R.
  - intros H. injection H as <- <-. destruct (IH p q eq_refl) as [-> Hq].
    split; [reflexivity | exact Hq].
  - destruct (Ascii.eqb a c) eqn:E; [|discriminate].
    intros H. injection H as <- <-. apply Ascii.eqb_eq in E. subst a.
    split; [reflexivity|].
    clear IH. induction s as [|b s IH]; simpl in *; [reflexivity|].
    destruct (rsplit_last c s) as [[p q]|]; [discriminate|].
    destruct (Ascii.eqb b c); [discriminate|]. simpl. apply IH. reflexivity.
Qed.

Lemma rsplit_last_none (c : ascii) (s : string) :
  rsplit_last c s = None <-> contains_char c s = false.
Proof.
  induction s as [|a s IH]; simpl; [tauto|].
  destruct (rsplit_last c s) as [[p q]|].
  - split; [discriminate|]. intros H. apply orb_false_elim in H as [_ H].
    apply IH in H. discriminate.
  - destruct (Ascii.eqb a c); simpl; [split; discriminate|].
    split; intros _; [apply IH; reflexivity | reflexivity].
Qed.

Lemma rsplit_last_complete (c : ascii) (pre post : string) :
  contains_char c post = false ->
  rsplit_last c (pre ++ String c post) = Some (pre, post).
Proof.
  intros H. induction pre as [|a pre IH]; simpl.
  - apply rsplit_last_none in H. rewrite H, Ascii.eqb_refl. reflexivity.
  - rewrite IH. reflexivity.
Qed.

(** The index [[1]] of [allowed_file] never fails behind its guard. *)
Lemma rsplit_index_defined (c : ascii) (s : string) :
  contains_char c s = true ->
  exists ext, nth_error (rsplit1 c s) 1 = Some ext.
Proof.
  intros H. unfold rsplit1.
  destruct (rsplit_last c s) as [[pre post]|] eqn:R.
  - exists post. reflexivity.
  - apply rsplit_last_none in R. congruence.
Qed.

Lemma contains_char_app (c : ascii) (a b : string) :
  contains_char c (a ++ b) = contains_char c a || contains_char c b.
Proof.
  induction a as [|x a IH]; simpl; [reflexivity|].
  rewrite IH. apply orb_assoc.
Qed.

(** [allowed_file] is the claim's suffix test. *)
Lemma allowed_file_spec (name : string) :
  allowed_file name = true <-> pdf_suffix name.
Proof.
  unfold allowed_file, pdf_suffix, rsplit1. split.
  - intros H. apply andb_prop in H as [_ H].
    destruct (rsplit_last "." name) as [[pre post]|] eqn:R; simpl in H;
      [|discriminate].
    apply rsplit_last_sound in R as [-> _].
    unfold mem, ALLOWED_EXTENSIONS in H. simpl in H.
    rewrite orb_false_r in H. apply String.eqb_eq in H.
    apply lower_pdf in H as (p & d & f & -> & Hp & Hd & Hf).
    exists pre, p, d, f. auto.
  - intros (stem & p & d & f & -> & Hp & Hd & Hf).
    assert (L : lower (String p (String d (String f ""))) = "pdf").
    { apply lower_pdf. exists p, d, f. auto. }
    assert (N : contains_char "." (String p (String d (String f ""))) = false).
    { destruct Hp as [-> | ->], Hd as [-> | ->], Hf as [-> | ->];
        reflexivity. }
    rewrite contains_char_app. simpl contains_char at 2.
    rewrite orb_true_r. simpl andb.
    rewrite (rsplit_last_complete "." stem _ N). simpl nth_error.
    rewrite L. reflexivity.
Qed.

(* ------------------------------------------------------------------ *)
(** ** Traces of the extractor and of the upload block *)

Lemma collect_parts_silent (pages : list Page) :
  forall parts, trace_of (collect_parts pages parts) = [].
Proof.
  induction pages as [|page rest IH]; intros parts; [reflexivity|].
  simpl. destruct page as [extracted|e]; simpl; [|reflexivity].
  specialize (IH (if truthy (strip (or_else extracted ""))
                  then (parts ++ [or_else extracted ""])%list else parts)).
  unfold trace_of in IH.
  destruct (collect_parts rest _) as [r t]. simpl in *. exact IH.
Qed.

Lemma extract_body_trace (w : World) (path : string) :
  forallb upload_event (trace_of (extract_body w path)) = true.
Proof.
  unfold extract_body, call, bind, trace_of.
  destruct (import_pypdf w); [|reflexivity].
  destruct (PdfReader w path) as [pages|e]; [|reflexivity].
  pose proof (collect_parts_silent pages []) as S. unfold trace_of in S.
  destruct (collect_parts pages []) as [[parts|e] t]; simpl in *; subst t;
    reflexivity.
Qed.

Lemma try_extract_trace (w : World) (path : string) :
  forallb upload_event (trace_of (try_extract_pdf_text w path)) = true.
Proof.
  pose proof (extract_body_trace w path) as H.
  unfold try_extract_pdf_text, try_except, trace_of in *.
  destruct (extract_body w path) as [[s|e] t]; simpl in *;
    [exact H | rewrite app_nil_r; exact H].
Qed.

(** The extractor returns, whatever pypdf does. *)
Lemma try_extract_returns (w : World) (path : string) :
  exists s, result_of (try_extract_pdf_text w path) = Ok s.
Proof.
  unfold try_extract_pdf_text, try_except, result_of.
  destruct (extract_body w path) as [[s|e] t]; simpl; eauto.
Qed.

Lemma try_extract_swallows (w : World) (path : string) (e : Exn) :
  result_of (extract_body w path) = Raise e ->
  result_of (try_extract_pdf_text w path) = Ok "".
Proof.
  unfold try_extract_pdf_text, try_except, result_of.
  destruct (extract_body w path) as [[s|e'] t]; simpl;
    [discriminate | reflexivity].
Qed.

Lemma upload_block_trace (w : World) (req : Request) (q l : string) :
  forallb upload_event (trace_of (upload_block w req q l)) = true.
Proof.
  unfold upload_block.
  destruct (files_get req "quote_pdf") as [f|]; [|reflexivity].
  destruct (file_truthy f && truthy (filename f)); [|reflexivity].
  destruct (negb (allowed_file (filename f))); [reflexivity|].
  pose proof (try_extract_trace w (path_join UPLOAD_FOLDER
                (secure_filename w (filename f)))) as T.
  unfold call, bind, trace_of in *.
  destruct (save w f _); [|reflexivity].
  destruct (try_extract_pdf_text w _) as [[s|e] t]; simpl in *;
    [rewrite app_nil_r|]; exact T.
Qed.

Lemma upload_events_quiet (t : list Event) :
  forallb upload_event t = true -> ~ calls_model t /\ ~ builds_client t.
Proof.
  intros H. rewrite forallb_forall in H.
  split; [intros (m & s & u & I) | intros (k & I)];
    apply H in I; discriminate.
Qed.

(** The upload block without a usable file part falls through with an empty
    [pdf_text] and calls nothing. *)
Lemma upload_block_no_file (w : World) (req : Request) (q l : string) :
  files_get req "quote_pdf" = None
  \/ (exists f, files_get req "quote_pdf" = Some f /\ filename f = "") ->
  upload_block w req q l = (Ok (Fell ""), []).
Proof.
  unfold upload_block, file_truthy.
  intros [-> | (f & -> & E)]; [reflexivity|]. rewrite E. reflexivity.
Qed.

(** When the upload block falls through to the validation: without a usable
    file part, with no PDF text; or after an allowed file was saved, with
    what the extractor returned. *)
Lemma upload_block_fell (w : World) (req : Request) (q l pdf_text : string) :
  result_of (upload_block w req q l) = Ok (Fell pdf_text) <->
  (pdf_text = ""
   /\ (files_get req "quote_pdf" = None
       \/ exists f, files_get req "quote_pdf" = Some f /\ filename f = ""))
  \/ (exists f,
        files_get req "quote_pdf" = Some f
        /\ allowed_file (filename f) = true
        /\ save w f (save_path_of w f) = Ok tt
        /\ result_of (try_extract_pdf_text w (save_path_of w f))
           = Ok pdf_text).
Proof.
  unfold upload_block, file_truthy, save_path_of, result_of, call, bind.
  destruct (files_get req "quote_pdf") as [f|].
  - destruct (filename f) as [|c name] eqn:N; simpl.
    + split.
      * intros H. injection H as <-. left. split; [reflexivity|].
        right. exists f. rewrite N. auto.
      * intros [[-> _] | (g & G & A & _)]; [reflexivity|].
        injection G as <-. rewrite N in A. discriminate A.
    + destruct (allowed_file (String c name)) eqn:A; simpl.
      * destruct (save w f _) as [[]|e] eqn:S; simpl.
        -- destruct (try_extract_pdf_text w _) as [[s|e] t] eqn:T; simpl.
           ++ split.
              ** intros H. injection H as <-. right. exists f.
                 rewrite N, A, S, T. auto.
              ** intros [[_ [H | (g & G & E)]] | (g & G & _ & _ & H)];
                   [discriminate H | | ].
                 --- injection G as <-. rewrite N in E. discriminate E.
                 --- injection G as <-. rewrite N, T in H. simpl in H.
                     congruence.
           ++ split; [discriminate|].
              intros [[_ [H | (g & G & E)]] | (g & G & _ & _ & H)];
                [discriminate H | | ].
              ** injection G as <-. rewrite N in E. discriminate E.
              ** injection G as <-. rewrite N, T in H. discriminate H.
        -- split; [discriminate|].
           intros [[_ [H | (g & G & E)]] | (g & G & _ & H & _)];
             [discriminate H | | ].
           ++ injection G as <-. rewrite N in E. discriminate E.
           ++ injection G as <-. rewrite N, S in H. discriminate H.
      * split; [discriminate|].
        intros [[_ [H | (g & G & E)]] | (g & G & H & _)];
          [discriminate H | | ].
        -- injection G as <-. rewrite N in E. discriminate E.
        -- injection G as <-. rewrite N, A in H. discriminate H.
  - split.
    + intros H. injection H as <-. left. auto.
    + intros [[-> _] | (g & G & _)]; [reflexivity | discriminate G].
Qed.

(** [index] on a POST, by the way its upload block ends. *)
Lemma index_post_returned (SP : string) (w : World) (req : Request)
  (page : Response) (t : list Event) :
  method req = POST ->
  upload_block w req (quote_text_of req) (location_of req)
    = (Ok (Returned page), t) ->
  index SP w req = (Ok page, t).
Proof.
  intros Hm Hu. unfold index. rewrite Hm.
  fold (quote_text_of req) (location_of req). rewrite Hu. simpl.
  rewrite app_nil_r. reflexivity.
Qed.

Lemma index_post_fell (SP : string) (w : World) (req : Request)
  (pdf_text : string) (t : list Event) :
  method req = POST ->
  upload_block w req (quote_text_of req) (location_of req)
    = (Ok (Fell pdf_text), t) ->
  index SP w req
  = (result_of (after_upload SP w (trade_of req) (location_of req)
                             (quote_text_of req) pdf_text),
     (t ++ trace_of (after_upload SP w (trade_of req) (location_of req)
                                  (quote_text_of req) pdf_text))%list).
Proof.
  intros Hm Hu. unfold index. rewrite Hm.
  fold (quote_text_of req) (location_of req) (trade_of req). rewrite Hu.
  unfold bind, result_of, trace_of.
  destruct (after_upload _ _ _ _ _ _) as [r t']. reflexivity.
Qed.

Lemma index_post_raised (SP : string) (w : World) (req : Request)
  (e : Exn) (t : list Event) :
  method req = POST ->
  upload_block w req (quote_text_of req) (location_of req) = (Raise e, t) ->
  index SP w req = (Raise e, t).
Proof.
  intros Hm Hu. unfold index. rewrite Hm.
  fold (quote_text_of req) (location_of req). rewrite Hu. reflexivity.
Qed.

(* ------------------------------------------------------------------ *)
(** ** The validation gate, the file-type check and the credential check *)

Lemma truthy_false (s : string) : truthy s = false <-> s = "".
Proof. destruct s; simpl; split; congruence. Qed.

Lemma truthy_true (s : string) : truthy s = true <-> s <> "".
Proof. destruct s; simpl; split; congruence. Qed.

(** C1. On a POST whose trimmed pasted text is empty and whose upload block
    reaches the validation with an empty [pdf_text] (no usable file part, or
    an allowed file from which nothing was extracted: [upload_block_fell]),
    [index] answers with the "Please paste quote text" page, and the
    completion service is not called. *)
Theorem C1_no_text_rejected (SP : string) (w : World) (req : Request) :
  method req = POST ->
  quote_text_of req = "" ->
  result_of (upload_block w req (quote_text_of req) (location_of req))
    = Ok (Fell "") ->
  result_of (index SP w req)
    = Ok (render w None (Some MSG_PASTE) "" (location_of req) None)
  /\ ~ calls_model (trace_of (index SP w req)).
Proof.
  intros Hm Hq Hu.
  pose proof (upload_block_trace w req (quote_text_of req) (location_of req))
    as T.
  destruct (upload_block w req (quote_text_of req) (location_of req))
    as [r t] eqn:U.
  unfold result_of in Hu. simpl in Hu. subst r.
  rewrite (index_post_fell SP w req "" t Hm U).
  unfold after_upload. rewrite Hq. simpl. split; [reflexivity|].
  rewrite app_nil_r. apply upload_events_quiet. exact T.
Qed.

(** C2. An uploaded file whose non-empty name is not a stem followed by
    ".pdf" in any letter case gets the "Only PDF files are allowed." page, and
    the handler makes no external call at all: nothing is saved, pypdf is not
    reached, no client is built and the completion service is not called. *)
Theorem C2_disallowed_file_rejected (SP : string) (w : World) (req : Request)
  (f : FileStorage) :
  method req = POST ->
  files_get req "quote_pdf" = Some f ->
  filename f <> "" ->
  ~ pdf_suffix (filename f) ->
  index SP w req
    = (Ok (render w None (Some MSG_ONLY_PDF) (quote_text_of req)
                  (location_of req) None), [])
  /\ ~ extracts_pdf (trace_of (index SP w req))
  /\ ~ calls_model (trace_of (index SP w req)).
Proof.
  intros Hm Hf Hn Hs.
  assert (A : allowed_file (filename f) = false).
  { destruct (allowed_file (filename f)) eqn:A; [|reflexivity].
    apply allowed_file_spec in A. contradiction. }
  assert (I : index SP w req
    = (Ok (render w None (Some MSG_ONLY_PDF) (quote_text_of req)
                  (location_of req) None), [])).
  { apply index_post_returned; [exact Hm|].
    unfold upload_block, file_truthy. rewrite Hf.
    apply truthy_true in Hn. rewrite Hn, A. reflexivity. }
  rewrite I. split; [reflexivity|]. unfold trace_of. simpl.
  split.
  - intros [H | (p & H)]; exact H.
  - intros (m & s & u & H). exact H.
Qed.

Lemma credential_absent_key (w : World) :
  credential_absent w ->
  strip (or_else (getenv w "OPENAI_API_KEY") "") = "".
Proof.
  intros [H | (s & H & S)]; rewrite H; simpl; [reflexivity|].
  destruct (truthy s); [apply strip_all_space; exact S | reflexivity].
Qed.

(** C4. When the credential is unset or whitespace-only and the request
    passes the validation (its upload block falls through and the pasted text
    or the PDF text is non-empty), [index] answers with the "Server is missing
    OPENAI_API_KEY." page; no client is built and the completion service is
    not called. *)
Theorem C4_missing_credential (SP : string) (w : World) (req : Request)
  (pdf_text : string) :
  method req = POST ->
  credential_absent w ->
  result_of (upload_block w req (quote_text_of req) (location_of req))
    = Ok (Fell pdf_text) ->
  quote_text_of req <> "" \/ pdf_text <> "" ->
  result_of (index SP w req)
    = Ok (render w None (Some MSG_NO_KEY) (quote_text_of req)
                 (location_of req) None)
  /\ ~ builds_client (trace_of (index SP w req))
  /\ ~ calls_model (trace_of (index SP w req)).
Proof.
  intros Hm Hk Hu Hv.
  pose proof (upload_block_trace w req (quote_text_of req) (location_of req))
    as T.
  destruct (upload_block w req (quote_text_of req) (location_of req))
    as [r t] eqn:U.
  unfold result_of in Hu. simpl in Hu. subst r.
  rewrite (index_post_fell SP w req pdf_text t Hm U).
  assert (G : negb (truthy (quote_text_of req)) && negb (truthy pdf_text)
              = false).
  { destruct Hv as [H | H]; apply truthy_true in H; rewrite H;
      [reflexivity | apply andb_false_r]. }
  unfold after_upload. rewrite G. unfold call, bind.
  rewrite (credential_absent_key w Hk). simpl.
  apply upload_events_quiet in T as [Tm Tc].
  split; [reflexivity|]. split.
  - intros (k & I). apply in_app_or in I as [I | I];
      [apply Tc; exists k; exact I|].
    destruct I as [I | []]; discriminate I.
  - intros (m & s & u & I). apply in_app_or in I as [I | I];
      [apply Tm; exists m, s, u; exact I|].
    destruct I as [I | []]; discriminate I.
Qed.

(* ------------------------------------------------------------------ *)
(** ** The completion call *)

Lemma append_empty_r (s : string) : s ++ "" = s.
Proof. induction s as [|c s IH]; simpl; [reflexivity | now rewrite IH]. Qed.


Lemma str_or_placeholder (s d : string) : str_or s d = or_placeholder s d.
Proof. destruct s; reflexivity. Qed.

Lemma not_upload_event (t : list Event) (ev : Event) :
  forallb upload_event t = true -> upload_event ev = false -> ~ In ev t.
Proof.
  intros H E I. rewrite forallb_forall in H. apply H in I. congruence.
Qed.

Lemma after_upload_trace (SP : string) (w : World) (tr lo q p : string) :
  forallb model_event (trace_of (after_upload SP w tr lo q p)) = true.
Proof.
  unfold after_upload, call_model, call, bind, try_except, trace_of.
  destruct (negb (truthy q) && negb (truthy p)); [reflexivity|].
  destruct (negb (truthy (strip (or_else _ "")))); [reflexivity|].
  destruct (OpenAI w _); [|reflexivity].
  destruct (responses_create w _ _ _); reflexivity.
Qed.

(** When the rest of [index] calls the completion service, it does so with
    the model name, the system instruction and the assembled user message,
    and the call decides the response. *)
Lemma after_upload_model_call (SP : string) (w : World) (tr lo q p : string)
  (m s u : string) :
  In (ECreate m s u) (trace_of (after_upload SP w tr lo q p)) ->
  m = MODEL /\ s = SP /\ u = user_payload tr lo q p
  /\ result_of (after_upload SP w tr lo q p)
     = result_of (call_model SP w q lo u).
Proof.
  unfold after_upload, call, bind, trace_of, result_of.
  destruct (negb (truthy q) && negb (truthy p)); [intros []|].
  destruct (negb (truthy (strip (or_else _ "")))); simpl;
    [intros [H | []]; discriminate H|].
  destruct (OpenAI w _); simpl; [|intros [H | [H | []]]; discriminate H].
  unfold call_model, call, bind, try_except.
  destruct (responses_create w MODEL SP (user_payload tr lo q p)) eqn:R;
    simpl; intros [H | [H | [H | []]]]; try discriminate H;
    injection H as <- <- <-; rewrite R; auto.
Qed.

Lemma index_model_call (SP : string) (w : World) (req : Request)
  (m s u : string) :
  In (ECreate m s u) (trace_of (index SP w req)) ->
  exists pdf_text,
    result_of (upload_block w req (quote_text_of req) (location_of req))
      = Ok (Fell pdf_text)
    /\ m = MODEL /\ s = SP
    /\ u = user_payload (trade_of req) (location_of req) (quote_text_of req)
                        pdf_text
    /\ result_of (index SP w req)
       = result_of (call_model SP w (quote_text_of req) (location_of req) u).
Proof.
  intros I.
  destruct (method req) eqn:Hm;
    [unfold index in I; rewrite Hm in I; destruct I|].
  pose proof (upload_block_trace w req (quote_text_of req) (location_of req))
    as T.
  destruct (upload_block w req (quote_text_of req) (location_of req))
    as [[[page | pdf_text] | e] t] eqn:U.
  - rewrite (index_post_returned SP w req page t Hm U) in I.
    exfalso. exact (not_upload_event t (ECreate m s u) T eq_refl I).
  - rewrite (index_post_fell SP w req pdf_text t Hm U) in I |- *.
    unfold trace_of at 1 in I. simpl in I.
    apply in_app_or in I as [I | I];
      [exfalso; exact (not_upload_event t (ECreate m s u) T eq_refl I)|].
    apply after_upload_model_call in I as (-> & -> & -> & R).
    exists pdf_text. unfold result_of at 1. simpl. auto.
  - rewrite (index_post_raised SP w req e t Hm U) in I.
    exfalso. exact (not_upload_event t (ECreate m s u) T eq_refl I).
Qed.

(** C5. Whenever the completion call that [index] makes raises an exception
    [e], [index] still returns a page: no result, and the error message
    "AI request failed: " followed by the description of [e]; the fault does
    not leave the handler. *)
Theorem C5_upstream_failure_caught (SP : string) (w : World) (req : Request)
  (m s u : string) (e : Exn) :
  In (ECreate m s u) (trace_of (index SP w req)) ->
  responses_create w m s u = Raise e ->
  exists page,
    result_of (index SP w req) = Ok page
    /\ result page = None
    /\ error page = Some (MSG_AI_FAILED ++ exn_str e)
    /\ occurs_in (exn_str e) (MSG_AI_FAILED ++ exn_str e).
Proof.
  intros I R.
  apply index_model_call in I as (pdf_text & _ & -> & -> & Hu & ->).
  unfold call_model, call, try_except, bind, result_of. rewrite R. simpl.
  eexists. split; [reflexivity|]. split; [reflexivity|].
  split; [reflexivity|].
  exists MSG_AI_FAILED, "". rewrite append_empty_r. reflexivity.
Qed.

(** C9. Whenever [index] calls the completion service, the user message it
    sends is, in this order: the trade or "Not provided", the location or
    "Not provided", the pasted text or "(not provided)", and the PDF text or
    "(no readable text extracted from PDF)", each under its label; the
    system message is the fixed instruction. *)
Theorem C9_user_message_layout (SP : string) (w : World) (req : Request)
  (m s u : string) :
  In (ECreate m s u) (trace_of (index SP w req)) ->
  exists pdf_text,
    result_of (upload_block w req (quote_text_of req) (location_of req))
      = Ok (Fell pdf_text)
    /\ s = SP
    /\ u = "Trade: " ++ or_placeholder (trade_of req) "Not provided" ++ NL
           ++ "Location: "
           ++ or_placeholder (location_of req) "Not provided" ++ NL
           ++ NL
           ++ "QUOTE TEXT:" ++ NL
           ++ or_placeholder (quote_text_of req) "(not provided)" ++ NL
           ++ NL
           ++ "PDF EXTRACTED TEXT:" ++ NL
           ++ or_placeholder pdf_text "(no readable text extracted from PDF)".
Proof.
  intros I.
  apply index_model_call in I as (pdf_text & U & _ & -> & -> & _).
  exists pdf_text. split; [exact U|]. split; [reflexivity|].
  unfold user_payload. rewrite !str_or_placeholder.
  replace (if truthy (quote_text_of req) then quote_text_of req
           else "(not provided)")
    with (or_placeholder (quote_text_of req) "(not provided)")
    by (destruct (quote_text_of req); reflexivity).
  replace (if truthy pdf_text then pdf_text
           else "(no readable text extracted from PDF)")
    with (or_placeholder pdf_text "(no readable text extracted from PDF)")
    by (destruct pdf_text; reflexivity).
  reflexivity.
Qed.

(* ------------------------------------------------------------------ *)
(** ** A file part without a name *)

Lemma not_model_event (t : list Event) (ev : Event) :
  forallb model_event t = true -> model_event ev = false -> ~ In ev t.
Proof.
  intros H E I. rewrite forallb_forall in H. apply H in I. congruence.
Qed.

Lemma after_upload_quiet (SP : string) (w : World) (tr lo q p : string) :
  ~ saves_file (trace_of (after_upload SP w tr lo q p))
  /\ ~ extracts_pdf (trace_of (after_upload SP w tr lo q p)).
Proof.
  pose proof (after_upload_trace SP w tr lo q p) as T.
  split; [intros (x & I) | intros [I | (x & I)]];
    revert I; apply not_model_event; auto.
Qed.

(** The rest of [index] never reports a file-type error. *)
Lemma after_upload_error (SP : string) (w : World) (tr lo q p : string)
  (page : Response) :
  result_of (after_upload SP w tr lo q p) = Ok page ->
  error page <> Some MSG_ONLY_PDF.
Proof.
  unfold after_upload, call_model, call, bind, try_except, result_of.
  destruct (negb (truthy q) && negb (truthy p)); simpl;
    [intros H; injection H as <-; discriminate|].
  destruct (negb (truthy (strip (or_else _ "")))); simpl;
    [intros H; injection H as <-; discriminate|].
  destruct (OpenAI w _); simpl; [|discriminate].
  destruct (responses_create w _ _ _); simpl;
    intros H; injection H as <-; discriminate.
Qed.

Lemma index_no_usable_file (SP : string) (w : World) (req : Request) :
  method req = POST ->
  files_get req "quote_pdf" = None
  \/ (exists f, files_get req "quote_pdf" = Some f /\ filename f = "") ->
  index SP w req
  = after_upload SP w (trade_of req) (location_of req) (quote_text_of req) "".
Proof.
  intros Hm Hf.
  rewrite (index_post_fell SP w req "" [] Hm
             (upload_block_no_file w req _ _ Hf)).
  unfold result_of, trace_of. destruct (after_upload _ _ _ _ _ _).
  reflexivity.
Qed.

(** C10. A [quote_pdf] part whose filename is empty changes nothing: [index]
    gives the same result and makes the same calls as on the request without
    the part. Nothing is saved, pypdf is not reached, the page is never the
    file-type error, and on a POST the handler is exactly its validation and
    completion code run with an empty [pdf_text]. *)
Theorem C10_empty_filename_as_no_file (SP : string) (w : World)
  (req : Request) (f : FileStorage) :
  files_get req "quote_pdf" = Some f ->
  filename f = "" ->
  index SP w req = index SP w (without_file req)
  /\ ~ saves_file (trace_of (index SP w req))
  /\ ~ extracts_pdf (trace_of (index SP w req))
  /\ (forall page, result_of (index SP w req) = Ok page ->
                   error page <> Some MSG_ONLY_PDF)
  /\ (method req = POST ->
      index SP w req
      = after_upload SP w (trade_of req) (location_of req)
                     (quote_text_of req) "").
Proof.
  intros Hf Hn. destruct (method req) eqn:Hm.
  - assert (I : index SP w req = ret (render w None None "" "" None))
      by (unfold index; rewrite Hm; reflexivity).
    assert (J : index SP w (without_file req)
                = ret (render w None None "" "" None))
      by (unfold index; simpl; rewrite Hm; reflexivity).
    rewrite I, J. unfold ret, trace_of, result_of. simpl.
    repeat split.
    + intros (p & []).
    + intros [[] | (p & [])].
    + intros page H. injection H as <-. discriminate.
    + discriminate.
  - assert (I : index SP w req
                = after_upload SP w (trade_of req) (location_of req)
                               (quote_text_of req) "").
    { apply index_no_usable_file; [exact Hm|]. right. exists f. auto. }
    assert (J : index SP w (without_file req)
                = after_upload SP w (trade_of req) (location_of req)
                               (quote_text_of req) "").
    { apply (index_no_usable_file SP w (without_file req)); [exact Hm|].
      left. reflexivity. }
    rewrite I, J.
    destruct (after_upload_quiet SP w (trade_of req) (location_of req)
                (quote_text_of req) "") as [Qs Qe].
    repeat split; auto.
    intros page. apply after_upload_error.
Qed.

(* ------------------------------------------------------------------ *)
(** ** The extractor at its boundary *)

(** C3. [try_extract_pdf_text] always returns a string. When anything in its
    body raises (the import, opening the file, or a page), it returns the
    empty string; and a POST with an allowed file that was saved then falls
    through the upload block with an empty [pdf_text], so that [index] goes
    on exactly as its validation code does with no PDF text. *)
Theorem C3_extraction_never_raises (SP : string) (w : World) (path : string) :
  (exists s, result_of (try_extract_pdf_text w path) = Ok s)
  /\ (forall e, result_of (extract_body w path) = Raise e ->
                result_of (try_extract_pdf_text w path) = Ok "")
  /\ (forall req f e,
        method req = POST ->
        files_get req "quote_pdf" = Some f ->
        allowed_file (filename f) = true ->
        save_path_of w f = path ->
        save w f path = Ok tt ->
        result_of (extract_body w path) = Raise e ->
        result_of (upload_block w req (quote_text_of req) (location_of req))
          = Ok (Fell "")
        /\ result_of (index SP w req)
           = result_of (after_upload SP w (trade_of req) (location_of req)
                                     (quote_text_of req) "")).
Proof.
  split; [apply try_extract_returns|].
  split; [apply try_extract_swallows|].
  intros req f e Hm Hf Ha Hp Hs He.
  assert (N : truthy (filename f) = true).
  { destruct (filename f); [discriminate Ha | reflexivity]. }
  pose proof (try_extract_swallows w path e He) as X.
  assert (U : exists t,
    upload_block w req (quote_text_of req) (location_of req)
    = (Ok (Fell ""), t)).
  { unfold upload_block, file_truthy. rewrite Hf, N, Ha. simpl andb.
    simpl negb. cbv iota. unfold save_path_of in Hp. rewrite Hp.
    unfold call, bind. rewrite Hs.
    unfold result_of in X.
    destruct (try_extract_pdf_text w path) as [r t]. simpl in X. subst r.
    eexists. reflexivity. }
  destruct U as [t U]. split; [rewrite U; reflexivity|].
  rewrite (index_post_fell SP w req "" t Hm U). reflexivity.
Qed.

(* ------------------------------------------------------------------ *)
(** ** Newline runs and blank lines *)

Lemma flush_cases (run : nat) :
  flush run = newlines 0 \/ flush run = newlines 1 \/ flush run = newlines 2.
Proof. destruct run as [|[|[|r]]]; cbn; auto. Qed.

Lemma no3_from_flush (run : nat) (c : ascii) (t : string) :
  Ascii.eqb c nl = false ->
  no3_from 0 (flush run ++ String c t) = no3_from 0 t.
Proof.
  intros E.
  destruct (flush_cases run) as [-> | [-> | ->]]; cbn; rewrite E;
    reflexivity.
Qed.

(** The substitution leaves no three newlines in a row. *)
Lemma collapse_no3 (s : string) :
  forall run, no3_from 0 (collapse_from run s) = true.
Proof.
  induction s as [|c s IH]; intros run; simpl.
  - destruct (flush_cases run) as [-> | [-> | ->]]; reflexivity.
  - destruct (Ascii.eqb c nl) eqn:E; [apply IH|].
    rewrite (no3_from_flush run c _ E). apply IH.
Qed.



Lemma lstrip_first (s : string) (c : ascii) :
  first_char (lstrip s) = Some c -> isspace c = false.
Proof.
  induction s as [|a s IH]; simpl; [discriminate|].
  destruct (isspace a) eqn:E; [exact IH|].
  simpl. intros H. injection H as <-. exact E.
Qed.







(* ------------------------------------------------------------------ *)
(** ** What the extractor returns *)

Lemma collect_parts_kept (texts : list (option string)) :
  forall parts,
    collect_parts (map Ok texts) parts
    = (Ok (parts ++ kept_texts texts)%list, []).
Proof.
  induction texts as [|x texts IH]; intros parts.
  - simpl. rewrite app_nil_r. reflexivity.
  - simpl collect_parts. unfold lift, bind. rewrite IH.
    unfold kept_texts. simpl map. simpl filter.
    destruct (truthy (strip (or_else x ""))); simpl;
      [rewrite <- app_assoc|]; reflexivity.
Qed.

(** On a readable PDF the extractor returns the kept page texts, joined by
    single newlines, trimmed, with long newline runs collapsed. *)
Lemma extract_readable (w : World) (path : string)
  (texts : list (option string)) :
  readable w path texts ->
  try_extract_pdf_text w path
  = (Ok (re_sub_newlines (strip (join NL (kept_texts texts)))),
     [EImportPypdf; EPdfReader path]).
Proof.
  intros [Hi Hr].
  unfold try_extract_pdf_text, extract_body, call, bind, try_except.
  rewrite Hi, Hr, collect_parts_kept. reflexivity.
Qed.

(** In every case the result is a trimmed text put through the
    substitution. *)
Lemma try_extract_shape (w : World) (path s : string) :
  result_of (try_extract_pdf_text w path) = Ok s ->
  exists text, s = re_sub_newlines (strip text).
Proof.
  unfold try_extract_pdf_text, extract_body, call, bind, try_except,
    result_of.
  destruct (import_pypdf w); simpl;
    [|intros H; injection H as <-; exists ""; reflexivity].
  destruct (PdfReader w path) as [pages|e]; simpl;
    [|intros H; injection H as <-; exists ""; reflexivity].
  destruct (collect_parts pages []) as [[parts|e] t]; simpl;
    intros H; injection H as <-; [eexists; reflexivity|].
  exists ""; reflexivity.
Qed.

Lemma last_char_app (a b : string) :
  b <> "" -> last_char (a ++ b) = last_char b.
Proof.
  intros Hb. induction a as [|c a IH]; [reflexivity|].
  simpl. destruct (a ++ b) eqn:E; [|exact IH].
  destruct a, b; try discriminate; contradiction.
Qed.







(* ------------------------------------------------------------------ *)
(** ** Page order, separators and trimming *)

Lemma isspace_not_nl (c : ascii) :
  isspace c = false -> Ascii.eqb c nl = false.
Proof.
  intros H. destruct (Ascii.eqb c nl) eqn:E; [|reflexivity].
  apply Ascii.eqb_eq in E. subst c. discriminate H.
Qed.

Lemma rstrip_last (s : string) :
  rstrip s = ""
  \/ exists c, last_char (rstrip s) = Some c /\ isspace c = false.
Proof.
  induction s as [|a s IH]; [left; reflexivity|].
  simpl. destruct IH as [-> | (c & L & S)].
  - destruct (isspace a) eqn:E; [left; reflexivity|].
    right. exists a. auto.
  - right. exists c. destruct (rstrip s); [discriminate L|]. auto.
Qed.

Lemma lstrip_last (s : string) (c : ascii) :
  last_char s = Some c -> isspace c = false -> last_char (lstrip s) = Some c.
Proof.
  intros L S. induction s as [|a s IH]; [discriminate L|].
  destruct s as [|b s].
  - simpl in L. injection L as ->. simpl. rewrite S. reflexivity.
  - change (last_char (String a (String b s))) with (last_char (String b s))
      in L.
    change (lstrip (String a (String b s)))
      with (if isspace a then lstrip (String b s) else String a (String b s)).
    destruct (isspace a); [apply IH; exact L | exact L].
Qed.

(** A stripped string is empty, or begins and ends with characters that are
    not whitespace. *)
Lemma strip_ends (s : string) :
  strip s = ""
  \/ exists c d, first_char (strip s) = Some c /\ isspace c = false
                 /\ last_char (strip s) = Some d /\ isspace d = false.
Proof.
  unfold strip. destruct (rstrip_last s) as [-> | (d & L & S)];
    [left; reflexivity|].
  right. pose proof (lstrip_last _ d L S) as L'.
  destruct (first_char (lstrip (rstrip s))) as [c|] eqn:F.
  - exists c, d. repeat split; auto. exact (lstrip_first _ c F).
  - destruct (lstrip (rstrip s)); discriminate.
Qed.

Lemma rstrip_fixed (s : string) (d : ascii) :
  last_char s = Some d -> isspace d = false -> rstrip s = s.
Proof.
  intros L S. induction s as [|a s IH]; [reflexivity|].
  destruct s as [|b s].
  - simpl in L. injection L as ->. simpl. rewrite S. reflexivity.
  - change (rstrip (String a (String b s)))
      with (match rstrip (String b s) with
            | EmptyString =>
                if isspace a then EmptyString else String a EmptyString
            | r => String a r
            end).
    rewrite IH by exact L. reflexivity.
Qed.

Lemma strip_fixed (s : string) (c d : ascii) :
  first_char s = Some c -> isspace c = false ->
  last_char s = Some d -> isspace d = false -> strip s = s.
Proof.
  intros F Sc L Sd. unfold strip. rewrite (rstrip_fixed s d L Sd).
  destruct s as [|a s]; [reflexivity|].
  simpl in F. injection F as ->. simpl. rewrite Sc. reflexivity.
Qed.

Lemma collapse_first (s : string) (c : ascii) :
  first_char s = Some c -> Ascii.eqb c nl = false ->
  first_char (collapse_from 0 s) = Some c.
Proof.
  destruct s as [|a s]; [discriminate|].
  simpl. intros H E. injection H as ->. rewrite E. reflexivity.
Qed.

Lemma collapse_last (s : string) (d : ascii) :
  last_char s = Some d -> Ascii.eqb d nl = false ->
  forall run, last_char (collapse_from run s) = Some d.
Proof.
  intros L E. induction s as [|a s IH]; [discriminate L|].
  destruct s as [|b s].
  - simpl in L. injection L as ->. intros run. simpl. rewrite E.
    rewrite last_char_app by discriminate. reflexivity.
  - specialize (IH L). intros run.
    change (collapse_from run (String a (String b s)))
      with (if Ascii.eqb a nl then collapse_from (S run) (String b s)
            else flush run ++ String a (collapse_from 0 (String b s))).
    destruct (Ascii.eqb a nl); [apply IH|].
    rewrite last_char_app by discriminate.
    specialize (IH 0). destruct (collapse_from 0 (String b s));
      [discriminate IH | exact IH].
Qed.

(** The substitution keeps a trimmed text trimmed. *)
Lemma strip_collapse_strip (text : string) :
  strip (re_sub_newlines (strip text)) = re_sub_newlines (strip text).
Proof.
  destruct (strip_ends text) as [-> | (c & d & F & Sc & L & Sd)];
    [reflexivity|].
  unfold re_sub_newlines.
  apply (strip_fixed _ c d); auto using collapse_first, collapse_last,
    isspace_not_nl.
Qed.

Lemma newlines_shift (k : nat) (s : string) :
  newlines k ++ String nl s = String nl (newlines k ++ s).
Proof. induction k as [|k IH]; simpl; [reflexivity | now rewrite IH]. Qed.

(** Without three newlines in a row the substitution changes nothing. *)
Lemma collapse_unchanged (s : string) :
  forall k, k <= 2 -> no3_from k s = true ->
            collapse_from k s = newlines k ++ s.
Proof.
  induction s as [|c s IH]; intros k Hk H.
  - simpl. rewrite append_empty_r.
    destruct k as [|[|[|k]]]; [reflexivity | reflexivity | reflexivity | lia].
  - simpl in *. destruct (Ascii.eqb c nl) eqn:E.
    + apply Ascii.eqb_eq in E. subst c.
      apply andb_prop in H as [H1 H2]. apply Nat.ltb_lt in H1.
      rewrite IH by (lia || exact H2). simpl. rewrite newlines_shift.
      reflexivity.
    + rewrite (IH 0) by (lia || exact H). simpl.
      destruct k as [|[|[|k]]]; [reflexivity | reflexivity | reflexivity | lia].
Qed.

(** C7, as the code has it. On a readable PDF the result is made of the kept
    page texts in document order with a single newline character (no blank
    line) between consecutive pages; that text is trimmed and its runs of
    three or more newlines are collapsed. The final result is trimmed, and
    when the joined text has no three newlines in a row, the result is the
    trimmed joined text itself. *)
Theorem C7_pages_joined_by_newline (w : World) (path : string)
  (texts : list (option string)) :
  readable w path texts ->
  exists s,
    result_of (try_extract_pdf_text w path) = Ok s
    /\ s = re_sub_newlines (strip (join NL (kept_texts texts)))
    /\ strip s = s
    /\ (no3_from 0 (strip (join NL (kept_texts texts))) = true ->
        s = strip (join NL (kept_texts texts))).
Proof.
  intros Hr. rewrite (extract_readable w path texts Hr).
  eexists. split; [reflexivity|]. split; [reflexivity|].
  split; [apply strip_collapse_strip|].
  intros H. unfold re_sub_newlines.
  rewrite collapse_unchanged by (lia || exact H). reflexivity.
Qed.

(** C7 as stated fails: two pages "A" and "B" come out with one newline
    between them, not with a blank line. *)
Lemma C7_counterexample :
  readable (sample_world (Ok [Ok (Some "A"); Ok (Some "B")]) None (Ok ""))
           "uploads/quote.pdf" [Some "A"; Some "B"]
  /\ result_of (try_extract_pdf_text
                  (sample_world (Ok [Ok (Some "A"); Ok (Some "B")]) None
                                (Ok ""))
                  "uploads/quote.pdf")
     = Ok ("A" ++ NL ++ "B")
  /\ blank_line_joined [Some "A"; Some "B"] = "A" ++ NL ++ NL ++ "B"
  /\ result_of (try_extract_pdf_text
                  (sample_world (Ok [Ok (Some "A"); Ok (Some "B")]) None
                                (Ok ""))
                  "uploads/quote.pdf")
     <> Ok (blank_line_joined [Some "A"; Some "B"]).
Proof.
  split; [split; reflexivity|]. split; [reflexivity|].
  split; [reflexivity|]. vm_compute. discriminate.
Qed.

(* ------------------------------------------------------------------ *)
(** ** What comes back in the form *)

(** Every page that [index] returns for a POST carries the trimmed location
    and pasted text; it is either an error page or a result page. *)
Lemma index_post_page (SP : string) (w : World) (req : Request)
  (page : Response) :
  method req = POST ->
  result_of (index SP w req) = Ok page ->
  location page = location_of req
  /\ quote_text page = quote_text_of req
  /\ year page = utcnow_year w
  /\ ((exists msg, error page = Some msg /\ msg <> ""
                   /\ result page = None /\ generated_at page = None)
      \/ (error page = None
          /\ exists res stamp, result page = Some res
                               /\ generated_at page = Some stamp)).
Proof.
  intros Hm H.
  destruct (upload_block w req (quote_text_of req) (location_of req))
    as [[[p | pdf_text] | e] t] eqn:U.
  - rewrite (index_post_returned SP w req p t Hm U) in H.
    injection H as <-. revert U. unfold upload_block.
    destruct (files_get req "quote_pdf") as [f|]; [|discriminate].
    destruct (file_truthy f && truthy (filename f)); [|discriminate].
    destruct (negb (allowed_file (filename f))).
    + intros U. injection U as <- _. simpl. repeat split.
      left. exists MSG_ONLY_PDF. repeat split. discriminate.
    + unfold call, bind. destruct (save w f _); [|discriminate].
      destruct (try_extract_pdf_text w _) as [[x|x] y]; discriminate.
  - rewrite (index_post_fell SP w req pdf_text t Hm U) in H.
    unfold result_of at 1 in H. simpl in H. revert H.
    unfold after_upload, call_model, call, bind, try_except, result_of.
    destruct (negb (truthy (quote_text_of req)) && negb (truthy pdf_text));
      simpl.
    { intros H. injection H as <-. simpl. repeat split.
      left. exists MSG_PASTE. repeat split. discriminate. }
    destruct (negb (truthy (strip (or_else _ "")))); simpl.
    { intros H. injection H as <-. simpl. repeat split.
      left. exists MSG_NO_KEY. repeat split. discriminate. }
    destruct (OpenAI w _); simpl; [|discriminate].
    destruct (responses_create w _ _ _) as [out|e]; simpl;
      intros H; injection H as <-; simpl; repeat split.
    + right. split; [reflexivity|]. eauto.
    + left. exists (MSG_AI_FAILED ++ exn_str e). repeat split. discriminate.
  - rewrite (index_post_raised SP w req e t Hm U) in H. discriminate H.
Qed.

(** C8, as the code has it. On every error page of a POST, the location and
    the pasted text come back as the handler trimmed them: they are the
    [location] and [quote_text] arguments of the template call, and the page
    prints them (escaped) in the location input and in the textarea, followed
    by the error box. Nothing is said of the trade: the template call has no
    such argument. *)
Theorem C8_location_and_text_echoed (SP : string) (w : World) (req : Request)
  (page : Response) (msg : string) :
  method req = POST ->
  result_of (index SP w req) = Ok page ->
  error page = Some msg ->
  location page = location_of req
  /\ quote_text page = quote_text_of req
  /\ page_of page
     = [ Lit 44 174; Out (escape (location_of req));
         Lit 174 182; Out (escape (quote_text_of req));
         Lit 182 205;
         Lit 205 207; Out (escape msg); Lit 207 209;
         Lit 209 216; Lit 223 227;
         Lit 227 249;
         Out (NilZero.string_of_uint (Nat.to_uint (utcnow_year w)));
         Lit 249 254 ].
Proof.
  intros Hm H He.
  destruct (index_post_page SP w req page Hm H)
    as (Hl & Hq & Hy & [(m & E & N & R & G) | (E & _)]);
    [|congruence].
  split; [exact Hl|]. split; [exact Hq|].
  rewrite He in E. injection E as <-.
  destruct page as [res err q l g y]. simpl in *. subst.
  unfold page_of, render_template_string. simpl.
  destruct msg as [|c msg]; [contradiction|]. simpl.
  destruct (location_of req), (quote_text_of req); reflexivity.
Qed.

(** C8 as stated fails for the trade: two submissions that differ in the
    trade only get the same page, so no reading of the page gives the trade
    back. *)
Lemma C8_counterexample :
  index sample_prompt (sample_world (Ok []) None (Ok ""))
        (sample_post "Plumbing" "Hobart TAS" "" None)
  = (Ok (MkResponse None (Some MSG_PASTE) "" "Hobart TAS" None 2026), [])
  /\ index sample_prompt (sample_world (Ok []) None (Ok ""))
           (sample_post "Roofing" "Hobart TAS" "" None)
     = (Ok (MkResponse None (Some MSG_PASTE) "" "Hobart TAS" None 2026), [])
  /\ ~ exists shown, echoes_trade shown.
Proof.
  split; [reflexivity|]. split; [reflexivity|].
  intros (shown & H).
  pose proof (H sample_prompt (sample_world (Ok []) None (Ok ""))
                (sample_post "Plumbing" "Hobart TAS" "" None)
                (MkResponse None (Some MSG_PASTE) "" "Hobart TAS" None 2026)
                eq_refl eq_refl ltac:(discriminate)) as H1.
  pose proof (H sample_prompt (sample_world (Ok []) None (Ok ""))
                (sample_post "Roofing" "Hobart TAS" "" None)
                (MkResponse None (Some MSG_PASTE) "" "Hobart TAS" None 2026)
                eq_refl eq_refl ltac:(discriminate)) as H2.
  rewrite H1 in H2. vm_compute in H2. discriminate H2.
Qed.

(* ------------------------------------------------------------------ *)
(** ** The theorems at work on sample runs *)

Lemma C1_witness :
  (method post_blank_text = POST
   /\ quote_text_of post_blank_text = ""
   /\ result_of (upload_block world_ok post_blank_text
                   (quote_text_of post_blank_text)
                   (location_of post_blank_text)) = Ok (Fell ""))
  /\ result_of (index sample_prompt world_ok post_blank_text)
     = Ok (render world_ok None (Some MSG_PASTE) ""
                  (location_of post_blank_text) None)
  /\ ~ calls_model (trace_of (index sample_prompt world_ok post_blank_text)).
Proof.
  split; [repeat split|].
  apply (C1_no_text_rejected sample_prompt world_ok post_blank_text);
    reflexivity.
Defined.

Lemma C2_witness :
  (method post_txt_file = POST
   /\ files_get post_txt_file "quote_pdf"
      = Some (MkFile "quote.txt" "plain text")
   /\ "quote.txt" <> ""
   /\ ~ pdf_suffix "quote.txt")
  /\ index sample_prompt world_ok post_txt_file
     = (Ok (render world_ok None (Some MSG_ONLY_PDF)
                   (quote_text_of post_txt_file)
                   (location_of post_txt_file) None), [])
  /\ ~ extracts_pdf (trace_of (index sample_prompt world_ok post_txt_file))
  /\ ~ calls_model (trace_of (index sample_prompt world_ok post_txt_file)).
Proof.
  assert (N : ~ pdf_suffix "quote.txt").
  { intros H. apply allowed_file_spec in H. discriminate H. }
  split; [repeat split; [discriminate | exact N]|].
  apply (C2_disallowed_file_rejected sample_prompt world_ok post_txt_file
           (MkFile "quote.txt" "plain text"));
    [reflexivity | reflexivity | discriminate | exact N].
Defined.

Lemma C3_witness :
  (allowed_file "quote.PDF" = true
   /\ result_of (extract_body world_broken_pdf "uploads/quote.PDF")
      = Raise (MkExn "EOF marker not found"))
  /\ result_of (try_extract_pdf_text world_broken_pdf "uploads/quote.PDF")
     = Ok ""
  /\ result_of (upload_block world_broken_pdf post_pdf_file
                  (quote_text_of post_pdf_file) (location_of post_pdf_file))
     = Ok (Fell "")
  /\ result_of (index sample_prompt world_broken_pdf post_pdf_file)
     = result_of (after_upload sample_prompt world_broken_pdf
                    (trade_of post_pdf_file) (location_of post_pdf_file)
                    (quote_text_of post_pdf_file) "").
Proof.
  split; [split; reflexivity|].
  destruct (C3_extraction_never_raises sample_prompt world_broken_pdf
              "uploads/quote.PDF") as (_ & Hswallow & Hgoes).
  split.
  - apply (Hswallow (MkExn "EOF marker not found")). reflexivity.
  - apply (Hgoes post_pdf_file (MkFile "quote.PDF" "%PDF-1.7")
                 (MkExn "EOF marker not found")); reflexivity.
Defined.

Lemma C4_witness :
  (method post_text = POST
   /\ credential_absent world_blank_key
   /\ result_of (upload_block world_blank_key post_text
                   (quote_text_of post_text) (location_of post_text))
      = Ok (Fell "")
   /\ quote_text_of post_text <> "")
  /\ result_of (index sample_prompt world_blank_key post_text)
     = Ok (render world_blank_key None (Some MSG_NO_KEY)
                  (quote_text_of post_text) (location_of post_text) None)
  /\ ~ builds_client (trace_of (index sample_prompt world_blank_key post_text))
  /\ ~ calls_model (trace_of (index sample_prompt world_blank_key post_text)).
Proof.
  assert (K : credential_absent world_blank_key).
  { right. exists "   ". split; reflexivity. }
  split; [repeat split; [exact K | discriminate]|].
  apply (C4_missing_credential sample_prompt world_blank_key post_text "");
    [reflexivity | exact K | reflexivity | left; discriminate].
Defined.

Lemma C5_witness :
  In (ECreate MODEL sample_prompt
              (user_payload "Plumbing" "Hobart TAS"
                            "Replace tap, $240 incl GST" ""))
     (trace_of (index sample_prompt world_upstream_down post_text))
  /\ exists page,
       result_of (index sample_prompt world_upstream_down post_text) = Ok page
       /\ result page = None
       /\ error page = Some (MSG_AI_FAILED ++ "Connection error.")
       /\ occurs_in "Connection error."
                    (MSG_AI_FAILED ++ "Connection error.").
Proof.
  assert (I : In (ECreate MODEL sample_prompt
                    (user_payload "Plumbing" "Hobart TAS"
                                  "Replace tap, $240 incl GST" ""))
                 (trace_of (index sample_prompt world_upstream_down
                                  post_text))).
  { right. right. left. reflexivity. }
  split; [exact I|].
  apply (C5_upstream_failure_caught sample_prompt world_upstream_down
           post_text _ _ _ (MkExn "Connection error.") I).
  reflexivity.
Defined.

Lemma C9_witness :
  In (ECreate MODEL sample_prompt
              (user_payload "Plumbing" "Hobart TAS"
                            "Replace tap, $240 incl GST" ""))
     (trace_of (index sample_prompt world_ok post_text))
  /\ exists pdf_text,
       result_of (upload_block world_ok post_text (quote_text_of post_text)
                               (location_of post_text)) = Ok (Fell pdf_text)
       /\ sample_prompt = sample_prompt
       /\ user_payload "Plumbing" "Hobart TAS" "Replace tap, $240 incl GST" ""
          = "Trade: " ++ or_placeholder (trade_of post_text) "Not provided"
            ++ NL
            ++ "Location: "
            ++ or_placeholder (location_of post_text) "Not provided" ++ NL
            ++ NL
            ++ "QUOTE TEXT:" ++ NL
            ++ or_placeholder (quote_text_of post_text) "(not provided)" ++ NL
            ++ NL
            ++ "PDF EXTRACTED TEXT:" ++ NL
            ++ or_placeholder pdf_text
                 "(no readable text extracted from PDF)".
Proof.
  assert (I : In (ECreate MODEL sample_prompt
                    (user_payload "Plumbing" "Hobart TAS"
                                  "Replace tap, $240 incl GST" ""))
                 (trace_of (index sample_prompt world_ok post_text))).
  { right. right. left. reflexivity. }
  split; [exact I|].
  exact (C9_user_message_layout sample_prompt world_ok post_text _ _ _ I).
Defined.


Lemma C7_witness :
  readable world_two_pages "uploads/quote.pdf" [Some "A"; None; Some "B"]
  /\ exists s,
       result_of (try_extract_pdf_text world_two_pages "uploads/quote.pdf")
         = Ok s
       /\ s = re_sub_newlines
                (strip (join NL (kept_texts [Some "A"; None; Some "B"])))
       /\ strip s = s
       /\ (no3_from 0 (strip (join NL (kept_texts [Some "A"; None; Some "B"])))
           = true ->
           s = strip (join NL (kept_texts [Some "A"; None; Some "B"]))).
Proof.
  assert (R : readable world_two_pages "uploads/quote.pdf"
                       [Some "A"; None; Some "B"]) by (split; reflexivity).
  split; [exact R|].
  exact (C7_pages_joined_by_newline world_two_pages "uploads/quote.pdf"
           [Some "A"; None; Some "B"] R).
Defined.

Lemma C8_witness :
  (method post_blank_text = POST
   /\ result_of (index sample_prompt world_ok post_blank_text)
      = Ok (MkResponse None (Some MSG_PASTE) "" "Hobart TAS" None 2026))
  /\ location (MkResponse None (Some MSG_PASTE) "" "Hobart TAS" None 2026)
     = location_of post_blank_text
  /\ quote_text (MkResponse None (Some MSG_PASTE) "" "Hobart TAS" None 2026)
     = quote_text_of post_blank_text
  /\ page_of (MkResponse None (Some MSG_PASTE) "" "Hobart TAS" None 2026)
     = [ Lit 44 174; Out (escape (location_of post_blank_text));
         Lit 174 182; Out (escape (quote_text_of post_blank_text));
         Lit 182 205;
         Lit 205 207; Out (escape MSG_PASTE); Lit 207 209;
         Lit 209 216; Lit 223 227;
         Lit 227 249;
         Out (NilZero.string_of_uint (Nat.to_uint (utcnow_year world_ok)));
         Lit 249 254 ].
Proof.
  split; [split; reflexivity|].
  apply (C8_location_and_text_echoed sample_prompt world_ok post_blank_text
           (MkResponse None (Some MSG_PASTE) "" "Hobart TAS" None 2026)
           MSG_PASTE); reflexivity.
Defined.

Lemma C10_witness :
  (files_get post_unnamed_file "quote_pdf" = Some (MkFile "" "")
   /\ filename (MkFile "" "") = "")
  /\ index sample_prompt world_ok post_unnamed_file
     = index sample_prompt world_ok (without_file post_unnamed_file)
  /\ ~ saves_file (trace_of (index sample_prompt world_ok post_unnamed_file))
  /\ ~ extracts_pdf (trace_of (index sample_prompt world_ok post_unnamed_file))
  /\ (forall page,
        result_of (index sample_prompt world_ok post_unnamed_file) = Ok page ->
        error page <> Some MSG_ONLY_PDF)
  /\ (method post_unnamed_file = POST ->
      index sample_prompt world_ok post_unnamed_file
      = after_upload sample_prompt world_ok (trade_of post_unnamed_file)
                     (location_of post_unnamed_file)
                     (quote_text_of post_unnamed_file) "").
Proof.
  split; [split; reflexivity|].
  apply (C10_empty_filename_as_no_file sample_prompt world_ok
           post_unnamed_file (MkFile "" "")); reflexivity.
Defined.

(* ------------------------------------------------------------------ *)
(** ** Sample evaluations *)

Example strip_ex : strip (" Hobart TAS" ++ NL ++ " ") = "Hobart TAS".
Proof. reflexivity. Qed.

Example rsplit_ex : rsplit1 "." "a.b.PDF" = ["a.b"; "PDF"].
Proof. reflexivity. Qed.

Example allowed_ex :
  allowed_file "quote.PDF" = true /\ allowed_file "quote.pdf.txt" = false
  /\ allowed_file "pdf" = false /\ allowed_file ".pdf" = true.
Proof. repeat split. Qed.

Example collapse_ex :
  re_sub_newlines ("a" ++ newlines 4 ++ "b" ++ newlines 2 ++ "c")
  = "a" ++ newlines 2 ++ "b" ++ newlines 2 ++ "c".
Proof. reflexivity. Qed.

Example lines_ex : lines ("a" ++ newlines 2 ++ "b") = ["a"; ""; "b"].
Proof. reflexivity. Qed.

(** Scenario A of the specification: pasted text, no file, a credential, and
    a completion service that answers. *)
Example scenario_success :
  result_of (index sample_prompt world_ok post_text)
  = Ok (MkResponse (Some "1. Verdict: Looks reasonable") None
                   "Replace tap, $240 incl GST" "Hobart TAS"
                   (Some "2026-11-04 09:30 UTC") 2026).
Proof. reflexivity. Qed.

(** A PDF upload goes through save, import, open, and then the model. *)
Example scenario_pdf_trace :
  trace_of (index sample_prompt world_two_pages post_pdf_file)
  = [ ESave "uploads/quote.PDF"; EImportPypdf; EPdfReader "uploads/quote.PDF";
      EGetenv "OPENAI_API_KEY"; EOpenAI "sk-test";
      ECreate MODEL sample_prompt
              (user_payload "Plumbing" "Hobart TAS" "Replace tap"
                            ("A" ++ NL ++ "B")) ].
Proof. reflexivity. Qed.

(* ------------------------------------------------------------------ *)
(** ** Beyond the claims: the file-name test *)

Lemma lower_char_dot (c : ascii) :
  Ascii.eqb (lower_char c) "." = Ascii.eqb c ".".
Proof. destruct c as [[] [] [] [] [] [] [] []]; reflexivity. Qed.

Lemma lower_char_twice (c : ascii) : lower_char (lower_char c) = lower_char c.
Proof. destruct c as [[] [] [] [] [] [] [] []]; reflexivity. Qed.

Lemma lower_twice (s : string) : lower (lower s) = lower s.
Proof.
  induction s as [|c s IH]; simpl; [reflexivity|].
  rewrite lower_char_twice, IH. reflexivity.
Qed.

Lemma contains_dot_lower (s : string) :
  contains_char "." (lower s) = contains_char "." s.
Proof.
  induction s as [|c s IH]; simpl; [reflexivity|].
  rewrite lower_char_dot, IH. reflexivity.
Qed.

Lemma rsplit_last_lower (s : string) :
  rsplit_last "." (lower s)
  = match rsplit_last "." s with
    | Some (pre, post) => Some (lower pre, lower post)
    | None => None
    end.
Proof.
  induction s as [|c s IH]; simpl; [reflexivity|].
  rewrite IH. destruct (rsplit_last "." s) as [[pre post]|];
    [reflexivity|].
  rewrite lower_char_dot. destruct (Ascii.eqb c "."); reflexivity.
Qed.

(** X1. The test does not depend on letter case anywhere in the name: a name
    and its lower-case form are accepted or rejected together. *)
Theorem X1_allowed_file_ignores_case (name : string) :
  allowed_file (lower name) = allowed_file name.
Proof.
  unfold allowed_file, rsplit1.
  rewrite contains_dot_lower, rsplit_last_lower.
  destruct (rsplit_last "." name) as [[pre post]|]; [|reflexivity].
  simpl. rewrite lower_twice. reflexivity.
Qed.

(** X2. Only the text after the last dot decides. A name without a dot is
    rejected; a name [stem.ext] whose [ext] has no dot is accepted exactly
    when [ext] is "pdf" in some letter case, whatever the stem is: empty,
    with other dots, with path separators. *)
Theorem X2_allowed_file_last_dot_only (stem ext name : string) :
  contains_char "." ext = false ->
  contains_char "." name = false ->
  allowed_file (stem ++ String "." ext) = String.eqb (lower ext) "pdf"
  /\ allowed_file name = false.
Proof.
  intros He Hn. split.
  - unfold allowed_file, rsplit1.
    rewrite contains_char_app. simpl contains_char at 2.
    rewrite orb_true_r, (rsplit_last_complete "." stem ext He).
    simpl. apply orb_false_r.
  - unfold allowed_file. rewrite Hn. reflexivity.
Qed.

Lemma X2_witness :
  (contains_char "." "PdF" = false /\ contains_char "." "quote_pdf" = false)
  /\ allowed_file ("../a.tar" ++ String "." "PdF") = String.eqb (lower "PdF") "pdf"
  /\ allowed_file "quote_pdf" = false.
Proof.
  split; [split; reflexivity|].
  apply (X2_allowed_file_last_dot_only "../a.tar" "PdF" "quote_pdf");
    reflexivity.
Defined.

(* ------------------------------------------------------------------ *)
(** ** Beyond the claims: the newline substitution *)

Lemma lines_newlines (m : nat) (t : string) :
  lines (newlines m ++ t) = (repeat "" m ++ lines t)%list.
Proof. induction m as [|m IH]; simpl; [reflexivity | now rewrite IH]. Qed.

Lemma filter_blank_prefix (m : nat) (ls : list string) :
  filter truthy (repeat "" m ++ ls) = filter truthy ls.
Proof. induction m as [|m IH]; simpl; [reflexivity | exact IH]. Qed.

Lemma flush_positive (run : nat) :
  1 <= run -> flush run = newlines 1 \/ flush run = newlines 2.
Proof. destruct run as [|[|[|r]]]; cbn; intros H; auto; lia. Qed.

(** The lines before and after the substitution: the same first line and the
    same lines with text after it; after a pending run of newlines, a blank
    first line and then the same lines with text. *)
Lemma collapse_lines (s : string) :
  (exists h t t',
      lines s = h :: t /\ lines (collapse_from 0 s) = h :: t'
      /\ filter truthy t' = filter truthy t)
  /\ (forall run, 1 <= run ->
        exists t', lines (collapse_from run s) = "" :: t'
                   /\ filter truthy t' = filter truthy (lines s)).
Proof.
  induction s as [|c s [(h & t & t' & L & L' & F) B]].
  - split; [exists "", [], []; auto|].
    intros run Hr. simpl.
    destruct (flush_positive run Hr) as [-> | ->]; eexists; split;
      reflexivity.
  - simpl lines. simpl collapse_from. destruct (Ascii.eqb c nl) eqn:E.
    + split.
      * destruct (B 1 (le_n 1)) as (t1 & L1 & F1).
        exists "", (lines s), t1. auto.
      * intros run Hr. destruct (B (S run) ltac:(lia)) as (t1 & L1 & F1).
        exists t1. split; [exact L1|]. simpl. exact F1.
    + rewrite L. split.
      * exists (String c h), t, t'. simpl. rewrite E, L'. auto.
      * intros run Hr.
        assert (Z : lines (String c (collapse_from 0 s))
                    = String c h :: t') by (simpl; rewrite E, L'; reflexivity).
        destruct (flush_positive run Hr) as [-> | ->].
        -- exists (String c h :: t'). split.
           ++ change (newlines 1 ++ String c (collapse_from 0 s))
                with (String nl (String c (collapse_from 0 s))).
              change (lines (String nl (String c (collapse_from 0 s))))
                with ("" :: lines (String c (collapse_from 0 s))).
              rewrite Z. reflexivity.
           ++ simpl. rewrite F. reflexivity.
        -- exists ("" :: String c h :: t'). split.
           ++ change (newlines 2 ++ String c (collapse_from 0 s))
                with (String nl (String nl (String c (collapse_from 0 s)))).
              change (lines (String nl
                        (String nl (String c (collapse_from 0 s)))))
                with ("" :: "" :: lines (String c (collapse_from 0 s))).
              rewrite Z. reflexivity.
           ++ simpl. rewrite F. reflexivity.
Qed.

Lemma length_append (a b : string) :
  String.length (a ++ b) = String.length a + String.length b.
Proof. induction a as [|c a IH]; simpl; [reflexivity | now rewrite IH]. Qed.

Lemma length_flush (run : nat) : String.length (flush run) <= run.
Proof. destruct run as [|[|[|r]]]; cbn; lia. Qed.

Lemma collapse_length (s : string) :
  forall run,
    String.length (collapse_from run s) <= run + String.length s.
Proof.
  induction s as [|c s IH]; intros run; simpl.
  - pose proof (length_flush run). lia.
  - destruct (Ascii.eqb c nl).
    + specialize (IH (S run)). lia.
    + rewrite length_append. simpl. specialize (IH 0).
      pose proof (length_flush run). lia.
Qed.

(** X3. The substitution never touches text: the lines that hold text are
    the same, in the same order, before and after, and the result is never
    longer than the input. *)
Theorem X3_substitution_keeps_text (s : string) :
  text_lines (re_sub_newlines s) = text_lines s
  /\ String.length (re_sub_newlines s) <= String.length s.
Proof.
  split.
  - destruct (collapse_lines s) as [(h & t & t' & L & L' & F) _].
    unfold text_lines, re_sub_newlines. rewrite L, L'. simpl. rewrite F.
    reflexivity.
  - exact (collapse_length s 0).
Qed.

Lemma collapse_twice (s : string) :
  collapse_from 0 (collapse_from 0 s) = collapse_from 0 s.
Proof.
  rewrite (collapse_unchanged (collapse_from 0 s) 0);
    [reflexivity | lia | apply collapse_no3].
Qed.

(** X4. Applying the substitution twice is the same as applying it once. *)
Theorem X4_substitution_idempotent (s : string) :
  re_sub_newlines (re_sub_newlines s) = re_sub_newlines s.
Proof. unfold re_sub_newlines. apply collapse_twice. Qed.

(** X5. Whatever pypdf does, the text that the extractor returns is already
    normalised: trimming it again or collapsing it again changes nothing. *)
Theorem X5_extraction_normalised (w : World) (path s : string) :
  result_of (try_extract_pdf_text w path) = Ok s ->
  strip s = s /\ re_sub_newlines s = s.
Proof.
  intros H. apply try_extract_shape in H as [text ->].
  split; [apply strip_collapse_strip | apply collapse_twice].
Qed.

Lemma X5_witness :
  result_of (try_extract_pdf_text world_gappy_pdf "uploads/quote.pdf")
    = Ok ("Total" ++ newlines 2 ++ "GST")
  /\ strip ("Total" ++ newlines 2 ++ "GST") = "Total" ++ newlines 2 ++ "GST"
  /\ re_sub_newlines ("Total" ++ newlines 2 ++ "GST")
     = "Total" ++ newlines 2 ++ "GST".
Proof.
  split; [reflexivity|].
  apply (X5_extraction_normalised world_gappy_pdf "uploads/quote.pdf").
  reflexivity.
Defined.

(* ------------------------------------------------------------------ *)
(** ** Beyond the claims: the extractor *)

Lemma collect_parts_raise (pages : list Page) :
  (exists e, In (Raise e) pages) ->
  forall parts, exists e', collect_parts pages parts = (Raise e', []).
Proof.
  induction pages as [|page rest IH]; intros [e I] parts; [destruct I|].
  simpl. destruct page as [extracted|e0].
  - destruct I as [I | I]; [discriminate I|].
    unfold lift, bind.
    destruct (IH (ex_intro _ e I)
                (if truthy (strip (or_else extracted ""))
                 then (parts ++ [or_else extracted ""])%list else parts))
      as [e' ->].
    exists e'. reflexivity.
  - exists e0. reflexivity.
Qed.

(** X6. Extraction is all or nothing: when any page of an opened PDF fails,
    the text of the pages that were read is dropped and the result is
    empty. *)
Theorem X6_extraction_all_or_nothing (w : World) (path : string)
  (pages : list Page) (e : Exn) :
  import_pypdf w = Ok tt ->
  PdfReader w path = Ok pages ->
  In (Raise e) pages ->
  try_extract_pdf_text w path = (Ok "", [EImportPypdf; EPdfReader path]).
Proof.
  intros Hi Hr I.
  unfold try_extract_pdf_text, extract_body, call, bind, try_except.
  rewrite Hi, Hr.
  destruct (collect_parts_raise pages (ex_intro _ e I) []) as [e' ->].
  reflexivity.
Qed.

Lemma X6_witness :
  (import_pypdf world_bad_page = Ok tt
   /\ PdfReader world_bad_page "uploads/quote.pdf"
      = Ok [Ok (Some "Page one"); Raise (MkExn "bad xref")]
   /\ In (Raise (MkExn "bad xref"))
         [Ok (Some "Page one"); Raise (MkExn "bad xref")])
  /\ try_extract_pdf_text world_bad_page "uploads/quote.pdf"
     = (Ok "", [EImportPypdf; EPdfReader "uploads/quote.pdf"]).
Proof.
  assert (I : In (Raise (MkExn "bad xref"))
                 [Ok (Some "Page one"); Raise (MkExn "bad xref")])
    by (right; left; reflexivity).
  split; [repeat split; exact I|].
  exact (X6_extraction_all_or_nothing world_bad_page "uploads/quote.pdf"
           _ _ eq_refl eq_refl I).
Defined.

Lemma all_space_app (a b : string) :
  all_space (a ++ b) = all_space a && all_space b.
Proof.
  induction a as [|c a IH]; simpl; [reflexivity|].
  rewrite IH. apply andb_assoc.
Qed.

Lemma join_head_all_space (p : string) (rest : list string) :
  all_space (join NL (p :: rest)) = true -> all_space p = true.
Proof.
  destruct rest as [|q rest]; [auto|].
  change (join NL (p :: q :: rest)) with (p ++ NL ++ join NL (q :: rest)).
  rewrite all_space_app. intros H. apply andb_prop in H as [H _]. exact H.
Qed.

Lemma collapse_pending_nonempty (s : string) :
  forall run, 1 <= run -> collapse_from run s <> "".
Proof.
  induction s as [|c s IH]; intros run Hr; simpl.
  - destruct (flush_positive run Hr) as [-> | ->]; discriminate.
  - destruct (Ascii.eqb c nl); [apply IH; lia|].
    destruct (flush_positive run Hr) as [-> | ->]; discriminate.
Qed.

Lemma collapse_empty (s : string) : re_sub_newlines s = "" -> s = "".
Proof.
  unfold re_sub_newlines. destruct s as [|c s]; [reflexivity|].
  simpl. destruct (Ascii.eqb c nl); [|discriminate].
  intros H. exfalso. exact (collapse_pending_nonempty s 1 (le_n 1) H).
Qed.

Lemma kept_texts_empty (texts : list (option string)) :
  kept_texts texts = [] <-> forallb blank_page texts = true.
Proof.
  unfold kept_texts, blank_page.
  induction texts as [|x texts IH]; simpl; [tauto|].
  destruct (truthy (strip (or_else x ""))); simpl; [|exact IH].
  split; discriminate.
Qed.

Lemma joined_text_empty (texts : list (option string)) :
  re_sub_newlines (strip (join NL (kept_texts texts))) = ""
  <-> forallb blank_page texts = true.
Proof.
  rewrite <- kept_texts_empty. split.
  - intros H. apply collapse_empty in H.
    apply strip_empty_all_space in H.
    destruct (kept_texts texts) as [|p rest] eqn:K; [reflexivity|].
    apply join_head_all_space in H. apply strip_all_space in H.
    assert (I : In p (kept_texts texts)) by (rewrite K; left; reflexivity).
    unfold kept_texts in I. apply filter_In in I as [_ T].
    rewrite H in T. discriminate T.
  - intros ->. reflexivity.
Qed.

(** X7. A readable PDF gives the empty text exactly when every page is
    blank: had no text ([None]), an empty text or whitespace only. *)
Theorem X7_empty_iff_all_pages_blank (w : World) (path : string)
  (texts : list (option string)) :
  readable w path texts ->
  (result_of (try_extract_pdf_text w path) = Ok ""
   <-> forallb blank_page texts = true).
Proof.
  intros Hr. rewrite (extract_readable w path texts Hr).
  unfold result_of. simpl fst. rewrite <- joined_text_empty.
  split; [intros H; injection H as H; exact H | intros ->; reflexivity].
Qed.

Lemma X7_witness :
  readable world_scanned "uploads/quote.pdf" [None; Some "  "; Some ""]
  /\ (result_of (try_extract_pdf_text world_scanned "uploads/quote.pdf")
      = Ok ""
      <-> forallb blank_page [None; Some "  "; Some ""] = true).
Proof.
  assert (R : readable world_scanned "uploads/quote.pdf"
                       [None; Some "  "; Some ""]) by (split; reflexivity).
  split; [exact R|].
  exact (X7_empty_iff_all_pages_blank world_scanned "uploads/quote.pdf" _ R).
Defined.

(* ------------------------------------------------------------------ *)
(** ** Beyond the claims: the paths through [index] *)

(** The four ways through the upload block. *)
Lemma upload_block_cases (w : World) (req : Request) (q l : string) :
  upload_block w req q l = (Ok (Fell ""), [])
  \/ (exists f, files_get req "quote_pdf" = Some f
        /\ filename f <> "" /\ allowed_file (filename f) = false
        /\ upload_block w req q l
           = (Ok (Returned (render w None (Some MSG_ONLY_PDF) q l None)), []))
  \/ (exists f e, files_get req "quote_pdf" = Some f
        /\ allowed_file (filename f) = true
        /\ save w f (save_path_of w f) = Raise e
        /\ upload_block w req q l = (Raise e, [ESave (save_path_of w f)]))
  \/ (exists f pdf_text, files_get req "quote_pdf" = Some f
        /\ allowed_file (filename f) = true
        /\ save w f (save_path_of w f) = Ok tt
        /\ result_of (try_extract_pdf_text w (save_path_of w f)) = Ok pdf_text
        /\ upload_block w req q l
           = (Ok (Fell pdf_text),
              ESave (save_path_of w f)
              :: trace_of (try_extract_pdf_text w (save_path_of w f)))).
Proof.
  unfold upload_block, file_truthy, save_path_of, call, bind, result_of,
    trace_of.
  destruct (files_get req "quote_pdf") as [f|]; [|left; reflexivity].
  destruct (filename f) as [|c name] eqn:N; [left; reflexivity|].
  simpl. destruct (allowed_file (String c name)) eqn:A; simpl.
  - destruct (save w f _) as [[]|e] eqn:S.
    + right. right. right.
      destruct (try_extract_returns w
                  (path_join UPLOAD_FOLDER (secure_filename w (String c name))))
        as [pdf_text R].
      unfold result_of in R.
      destruct (try_extract_pdf_text w
                  (path_join UPLOAD_FOLDER
                             (secure_filename w (String c name))))
        as [r t] eqn:T.
      simpl in R. subst r.
      exists f, pdf_text. rewrite N, A, S, T. simpl. rewrite app_nil_r.
      auto.
    + right. right. left. exists f, e. rewrite N, A, S. auto.
  - right. left. exists f. rewrite N, A. repeat split. discriminate.
Qed.

(** The four ways through the rest of [index]. *)
Lemma after_upload_cases (SP : string) (w : World) (tr lo q p : string) :
  (q = "" /\ p = ""
   /\ after_upload SP w tr lo q p
      = (Ok (render w None (Some MSG_PASTE) q lo None), []))
  \/ ((q <> "" \/ p <> "") /\ api_key_of w = ""
      /\ after_upload SP w tr lo q p
         = (Ok (render w None (Some MSG_NO_KEY) q lo None),
            [EGetenv "OPENAI_API_KEY"]))
  \/ ((q <> "" \/ p <> "") /\ api_key_of w <> ""
      /\ exists e, OpenAI w (api_key_of w) = Raise e
         /\ after_upload SP w tr lo q p
            = (Raise e, [EGetenv "OPENAI_API_KEY"; EOpenAI (api_key_of w)]))
  \/ ((q <> "" \/ p <> "") /\ api_key_of w <> ""
      /\ OpenAI w (api_key_of w) = Ok tt
      /\ after_upload SP w tr lo q p
         = (result_of (call_model SP w q lo (user_payload tr lo q p)),
            model_calls SP (api_key_of w) (user_payload tr lo q p))).
Proof.
  unfold after_upload, api_key_of, model_calls, call_model, call, bind,
    try_except, result_of, ret.
  cbv zeta.
  destruct (negb (truthy q) && negb (truthy p)) eqn:G.
  - left. apply andb_prop in G as [Gq Gp].
    apply negb_true_iff in Gq, Gp. apply truthy_false in Gq, Gp. subst.
    auto.
  - assert (V : q <> "" \/ p <> "").
    { apply andb_false_iff in G as [G | G]; apply negb_false_iff in G;
        apply truthy_true in G; auto. }
    right.
    destruct (truthy (strip (or_else (getenv w "OPENAI_API_KEY") "")))
      eqn:Tk; cbn [negb].
    + right. apply truthy_true in Tk.
      destruct (OpenAI w (strip (or_else (getenv w "OPENAI_API_KEY") "")))
        as [[]|e] eqn:O.
      * right. split; [exact V|]. split; [exact Tk|].
        split; [reflexivity|].
        destruct (responses_create w MODEL SP _); reflexivity.
      * left. split; [exact V|]. split; [exact Tk|].
        exists e. split; reflexivity.
    + left. apply truthy_false in Tk. split; [exact V|].
      split; [exact Tk | reflexivity].
Qed.

(** [index] on a POST is its upload block followed, when that falls through,
    by the rest. *)
Lemma index_post (SP : string) (w : World) (req : Request) :
  method req = POST ->
  index SP w req
  = match upload_block w req (quote_text_of req) (location_of req) with
    | (Ok (Returned page), t) => (Ok page, t)
    | (Ok (Fell pdf_text), t) =>
        (result_of (after_upload SP w (trade_of req) (location_of req)
                                 (quote_text_of req) pdf_text),
         (t ++ trace_of (after_upload SP w (trade_of req) (location_of req)
                                      (quote_text_of req) pdf_text))%list)
    | (Raise e, t) => (Raise e, t)
    end.
Proof.
  intros Hm.
  destruct (upload_block w req (quote_text_of req) (location_of req))
    as [[[page | pdf_text] | e] t] eqn:U.
  - exact (index_post_returned SP w req page t Hm U).
  - exact (index_post_fell SP w req pdf_text t Hm U).
  - exact (index_post_raised SP w req e t Hm U).
Qed.

Lemma try_extract_trace_shape (w : World) (path : string) :
  exists i, trace_of (try_extract_pdf_text w path)
            = firstn i [EImportPypdf; EPdfReader path].
Proof.
  unfold try_extract_pdf_text, extract_body, call, bind, try_except,
    trace_of.
  destruct (import_pypdf w); [|exists 1; reflexivity].
  destruct (PdfReader w path) as [pages|e]; [|exists 2; reflexivity].
  pose proof (collect_parts_silent pages []) as S. unfold trace_of in S.
  destruct (collect_parts pages []) as [[parts|e] t]; simpl in *; subst t;
    exists 2; reflexivity.
Qed.

Lemma after_upload_trace_shape (SP : string) (w : World)
  (tr lo q p : string) :
  exists j, trace_of (after_upload SP w tr lo q p)
            = firstn j (model_calls SP (api_key_of w)
                                    (user_payload tr lo q p)).
Proof.
  destruct (after_upload_cases SP w tr lo q p)
    as [(_ & _ & ->) | [(_ & _ & ->) | [(_ & _ & e & _ & ->)
       | (_ & _ & _ & ->)]]].
  - exists 0. reflexivity.
  - exists 1. reflexivity.
  - exists 2. reflexivity.
  - exists 3. reflexivity.
Qed.

(** X8. A request is handled in a single pass: the external calls that
    [index] makes are an initial part of save, import pypdf, open the PDF,
    followed by an initial part of read the credential, build the client,
    call the completion service. Each call happens at most once and never
    out of this order; in particular nothing is retried. *)
Theorem X8_single_pass (SP : string) (w : World) (req : Request) :
  exists path pdf_text i j,
    trace_of (index SP w req)
    = (firstn i (upload_calls path)
       ++ firstn j (model_calls SP (api_key_of w)
                      (user_payload (trade_of req) (location_of req)
                                    (quote_text_of req) pdf_text)))%list.
Proof.
  destruct (method req) eqn:Hm.
  - exists "", "", 0, 0. unfold index. rewrite Hm. reflexivity.
  - rewrite (index_post SP w req Hm).
    destruct (upload_block_cases w req (quote_text_of req) (location_of req))
      as [-> | [(f & _ & _ & _ & ->) | [(f & e & _ & _ & _ & ->)
         | (f & pdf_text & _ & _ & _ & _ & ->)]]].
    + destruct (after_upload_trace_shape SP w (trade_of req) (location_of req)
                  (quote_text_of req) "") as [j J].
      exists "", "", 0, j. unfold trace_of at 1. simpl. exact J.
    + exists "", "", 0, 0. reflexivity.
    + exists (save_path_of w f), "", 1, 0. reflexivity.
    + destruct (after_upload_trace_shape SP w (trade_of req) (location_of req)
                  (quote_text_of req) pdf_text) as [j J].
      destruct (try_extract_trace_shape w (save_path_of w f)) as [i I].
      exists (save_path_of w f), pdf_text, (S i), j.
      unfold trace_of at 1. simpl snd. rewrite I, J. reflexivity.
Qed.

(** X9. Storing the upload is not guarded: when [f.save] raises, the
    exception leaves [index], and nothing after the save is reached: pypdf,
    the environment and the completion service are not touched. *)
Theorem X9_save_failure_escapes (SP : string) (w : World) (req : Request)
  (f : FileStorage) (e : Exn) :
  method req = POST ->
  files_get req "quote_pdf" = Some f ->
  allowed_file (filename f) = true ->
  save w f (save_path_of w f) = Raise e ->
  index SP w req = (Raise e, [ESave (save_path_of w f)]).
Proof.
  intros Hm Hf Ha Hs. apply index_post_raised; [exact Hm|].
  assert (N : truthy (filename f) = true)
    by (destruct (filename f); [discriminate Ha | reflexivity]).
  unfold upload_block, file_truthy, call, bind.
  unfold save_path_of in Hs. rewrite Hf, N, Ha. simpl. rewrite Hs.
  reflexivity.
Qed.

Lemma X9_witness :
  (method post_pdf_file = POST
   /\ files_get post_pdf_file "quote_pdf" = Some (MkFile "quote.PDF" "%PDF-1.7")
   /\ allowed_file "quote.PDF" = true
   /\ save world_disk_full (MkFile "quote.PDF" "%PDF-1.7")
           "uploads/quote.PDF"
      = Raise (MkExn "No space left on device"))
  /\ index sample_prompt world_disk_full post_pdf_file
     = (Raise (MkExn "No space left on device"), [ESave "uploads/quote.PDF"]).
Proof.
  split; [repeat split|].
  exact (X9_save_failure_escapes sample_prompt world_disk_full post_pdf_file
           (MkFile "quote.PDF" "%PDF-1.7") _ eq_refl eq_refl eq_refl eq_refl).
Defined.

(** Where an exception that leaves [index] comes from, for a request that
    was parsed: from one of the two calls of the handler that stand outside a
    [try], storing an allowed upload or building the client. *)
Lemma index_fault_origin (SP : string) (w : World) (req : Request)
  (e : Exn) :
  result_of (index SP w req) = Raise e ->
  (exists f, files_get req "quote_pdf" = Some f
             /\ allowed_file (filename f) = true
             /\ save w f (save_path_of w f) = Raise e)
  \/ (api_key_of w <> "" /\ OpenAI w (api_key_of w) = Raise e).
Proof.
  destruct (method req) eqn:Hm;
    [unfold index; rewrite Hm; discriminate|].
  rewrite (index_post SP w req Hm).
  assert (A : forall pdf_text,
    result_of (after_upload SP w (trade_of req) (location_of req)
                            (quote_text_of req) pdf_text) = Raise e ->
    api_key_of w <> "" /\ OpenAI w (api_key_of w) = Raise e).
  { intros pdf_text.
    destruct (after_upload_cases SP w (trade_of req) (location_of req)
                (quote_text_of req) pdf_text)
      as [(_ & _ & ->) | [(_ & _ & ->) | [(_ & K & e' & O & ->)
         | (_ & _ & _ & ->)]]]; unfold result_of; simpl.
    - discriminate.
    - discriminate.
    - intros H. injection H as <-. auto.
    - unfold call_model, call, bind, try_except.
      destruct (responses_create w MODEL SP _); discriminate. }
  destruct (upload_block_cases w req (quote_text_of req) (location_of req))
    as [-> | [(f & _ & _ & _ & ->) | [(f & e' & Hf & Ha & Hs & ->)
       | (f & pdf_text & _ & _ & _ & _ & ->)]]]; unfold result_of at 1;
    simpl fst.
  - intros H. right. exact (A "" H).
  - discriminate.
  - intros H. injection H as <-. left. exists f. auto.
  - intros H. right. exact (A pdf_text H).
Qed.

(** X10. Failures of pypdf and of the completion service never leave the
    handler. For a parsed request, when storing the upload (if there is one)
    and building the client succeed, [index] returns a page, whatever the
    import of pypdf, the opening of the file, the pages and the completion
    call do. *)
Theorem X10_guarded_calls_never_escape (SP : string) (w : World)
  (req : Request) :
  (forall f, files_get req "quote_pdf" = Some f ->
             save w f (save_path_of w f) = Ok tt) ->
  OpenAI w (api_key_of w) = Ok tt ->
  exists page, result_of (index SP w req) = Ok page.
Proof.
  intros Hs Ho.
  destruct (result_of (index SP w req)) as [page|e] eqn:R;
    [exists page; reflexivity|].
  exfalso.
  destruct (index_fault_origin SP w req e R)
    as [(f & Hf & _ & S) | (_ & O)].
  - rewrite (Hs f Hf) in S. discriminate S.
  - rewrite Ho in O. discriminate O.
Qed.

Lemma X10_witness :
  ((forall f, files_get post_pdf_file "quote_pdf" = Some f ->
              save world_pdf_and_service_fail f
                   (save_path_of world_pdf_and_service_fail f) = Ok tt)
   /\ OpenAI world_pdf_and_service_fail
             (api_key_of world_pdf_and_service_fail) = Ok tt
   /\ result_of (extract_body world_pdf_and_service_fail "uploads/quote.PDF")
      = Raise (MkExn "EOF marker not found")
   /\ responses_create world_pdf_and_service_fail MODEL sample_prompt
        (user_payload "Plumbing" "Hobart TAS" "Replace tap" "")
      = Raise (MkExn "Connection error."))
  /\ exists page,
       result_of (index sample_prompt world_pdf_and_service_fail post_pdf_file)
       = Ok page.
Proof.
  split; [repeat split|].
  apply (X10_guarded_calls_never_escape sample_prompt
           world_pdf_and_service_fail post_pdf_file);
    [intros f _; reflexivity | reflexivity].
Defined.

Lemma strip_twice (s : string) : strip (strip s) = strip s.
Proof.
  destruct (strip_ends s) as [-> | (c & d & F & Sc & L & Sd)];
    [reflexivity | exact (strip_fixed _ c d F Sc L Sd)].
Qed.

(** When [index] calls the completion service, the whole run is known. *)
Lemma index_model_run (SP : string) (w : World) (req : Request)
  (m s u : string) :
  In (ECreate m s u) (trace_of (index SP w req)) ->
  exists pdf_text t,
    upload_block w req (quote_text_of req) (location_of req)
      = (Ok (Fell pdf_text), t)
    /\ (quote_text_of req <> "" \/ pdf_text <> "")
    /\ api_key_of w <> ""
    /\ OpenAI w (api_key_of w) = Ok tt
    /\ m = MODEL /\ s = SP
    /\ u = user_payload (trade_of req) (location_of req) (quote_text_of req)
                        pdf_text
    /\ index SP w req
       = (result_of (call_model SP w (quote_text_of req) (location_of req) u),
          (t ++ model_calls SP (api_key_of w) u)%list).
Proof.
  intros I.
  destruct (method req) eqn:Hm;
    [unfold index in I; rewrite Hm in I; destruct I|].
  pose proof (upload_block_trace w req (quote_text_of req) (location_of req))
    as T.
  rewrite (index_post SP w req Hm) in I |- *.
  destruct (upload_block w req (quote_text_of req) (location_of req))
    as [[[page | pdf_text] | e] t] eqn:U;
    try (exfalso; exact (not_upload_event t (ECreate m s u) T eq_refl I)).
  unfold trace_of at 1 in I. simpl snd in I.
  apply in_app_or in I as [I | I];
    [exfalso; exact (not_upload_event t (ECreate m s u) T eq_refl I)|].
  exists pdf_text, t.
  destruct (after_upload_cases SP w (trade_of req) (location_of req)
              (quote_text_of req) pdf_text)
    as [(_ & _ & E) | [(_ & _ & E) | [(_ & _ & e & _ & E)
       | (V & K & O & E)]]]; rewrite E in I |- *; unfold trace_of in I;
    simpl snd in I.
  - destruct I.
  - destruct I as [I | []]; discriminate I.
  - destruct I as [I | [I | []]]; discriminate I.
  - destruct I as [I | [I | [I | []]]]; try discriminate I.
    injection I as <- <- <-. unfold result_of at 1, trace_of. simpl.
    repeat split; auto.
Qed.

(** X11. The completion service is only ever called with something to
    analyse and with a usable credential: the pasted text or the PDF text is
    non-empty, the credential is non-empty and already trimmed, and the
    client was built with it just before. *)
Theorem X11_model_called_with_content_and_key (SP : string) (w : World)
  (req : Request) (m s u : string) :
  In (ECreate m s u) (trace_of (index SP w req)) ->
  exists pdf_text,
    result_of (upload_block w req (quote_text_of req) (location_of req))
      = Ok (Fell pdf_text)
    /\ (quote_text_of req <> "" \/ pdf_text <> "")
    /\ api_key_of w <> ""
    /\ strip (api_key_of w) = api_key_of w
    /\ In (EOpenAI (api_key_of w)) (trace_of (index SP w req)).
Proof.
  intros I.
  destruct (index_model_run SP w req m s u I)
    as (pdf_text & t & U & V & K & _ & _ & _ & _ & E).
  exists pdf_text. rewrite U, E. unfold result_of, trace_of. simpl.
  repeat split; auto.
  - unfold api_key_of. apply strip_twice.
  - apply in_or_app. right. right. left. reflexivity.
Qed.

Lemma X11_witness :
  In (ECreate MODEL sample_prompt
              (user_payload "Plumbing" "Hobart TAS"
                            "Replace tap, $240 incl GST" ""))
     (trace_of (index sample_prompt world_ok post_text))
  /\ exists pdf_text,
       result_of (upload_block world_ok post_text (quote_text_of post_text)
                               (location_of post_text)) = Ok (Fell pdf_text)
       /\ (quote_text_of post_text <> "" \/ pdf_text <> "")
       /\ api_key_of world_ok <> ""
       /\ strip (api_key_of world_ok) = api_key_of world_ok
       /\ In (EOpenAI (api_key_of world_ok))
             (trace_of (index sample_prompt world_ok post_text)).
Proof.
  assert (I : In (ECreate MODEL sample_prompt
                    (user_payload "Plumbing" "Hobart TAS"
                                  "Replace tap, $240 incl GST" ""))
                 (trace_of (index sample_prompt world_ok post_text))).
  { right. right. left. reflexivity. }
  split; [exact I|].
  exact (X11_model_called_with_content_and_key sample_prompt world_ok
           post_text _ _ _ I).
Defined.

(* ------------------------------------------------------------------ *)
(** ** Beyond the claims: the pages *)

(** X12. When the completion service answers, the page carries the trimmed
    answer, no error and the time stamp, and prints the answer in the result
    box. When the answer is whitespace only, the trimmed answer is empty and
    the template treats it as no result: the page shows neither a result nor
    an error, only the invitation to paste a quote. *)
Theorem X12_answer_page (SP : string) (w : World) (req : Request)
  (m s u out : string) :
  In (ECreate m s u) (trace_of (index SP w req)) ->
  responses_create w m s u = Ok out ->
  exists page,
    result_of (index SP w req) = Ok page
    /\ error page = None
    /\ result page = Some (strip out)
    /\ generated_at page = Some (utcnow_strftime w "%Y-%m-%d %H:%M UTC")
    /\ page_of page
       = ([ Lit 44 174; Out (escape (location_of req));
            Lit 174 182; Out (escape (quote_text_of req));
            Lit 182 205; Lit 209 216 ]
          ++ (if truthy (strip out)
              then [ Lit 216 218; Out (escape (strip out)); Lit 218 221;
                     Out (escape (utcnow_strftime w "%Y-%m-%d %H:%M UTC"));
                     Lit 221 223 ]
              else [ Lit 223 227 ])
          ++ [ Lit 227 249;
               Out (NilZero.string_of_uint (Nat.to_uint (utcnow_year w)));
               Lit 249 254 ])%list.
Proof.
  intros I R.
  destruct (index_model_run SP w req m s u I)
    as (pdf_text & t & _ & _ & _ & _ & -> & -> & Hu & E).
  rewrite E. unfold result_of, call_model, call, bind, try_except.
  rewrite R. simpl fst. eexists. split; [reflexivity|].
  split; [reflexivity|]. split; [reflexivity|]. split; [reflexivity|].
  unfold page_of, render_template_string, render. simpl.
  destruct (strip out) as [|c o]; simpl;
    destruct (location_of req), (quote_text_of req); reflexivity.
Qed.

Lemma X12_witness :
  (In (ECreate MODEL sample_prompt
               (user_payload "Plumbing" "Hobart TAS"
                             "Replace tap, $240 incl GST" ""))
      (trace_of (index sample_prompt world_blank_answer post_text))
   /\ responses_create world_blank_answer MODEL sample_prompt
        (user_payload "Plumbing" "Hobart TAS" "Replace tap, $240 incl GST" "")
      = Ok "   ")
  /\ exists page,
       result_of (index sample_prompt world_blank_answer post_text) = Ok page
       /\ error page = None
       /\ result page = Some (strip "   ")
       /\ generated_at page
          = Some (utcnow_strftime world_blank_answer "%Y-%m-%d %H:%M UTC")
       /\ page_of page
          = ([ Lit 44 174; Out (escape (location_of post_text));
               Lit 174 182; Out (escape (quote_text_of post_text));
               Lit 182 205; Lit 209 216 ]
             ++ (if truthy (strip "   ")
                 then [ Lit 216 218; Out (escape (strip "   ")); Lit 218 221;
                        Out (escape (utcnow_strftime world_blank_answer
                                       "%Y-%m-%d %H:%M UTC"));
                        Lit 221 223 ]
                 else [ Lit 223 227 ])
             ++ [ Lit 227 249;
                  Out (NilZero.string_of_uint
                         (Nat.to_uint (utcnow_year world_blank_answer)));
                  Lit 249 254 ])%list.
Proof.
  assert (I : In (ECreate MODEL sample_prompt
                    (user_payload "Plumbing" "Hobart TAS"
                                  "Replace tap, $240 incl GST" ""))
                 (trace_of (index sample_prompt world_blank_answer
                                  post_text))).
  { right. right. left. reflexivity. }
  split; [split; [exact I | reflexivity]|].
  exact (X12_answer_page sample_prompt world_blank_answer post_text _ _ _
           "   " I eq_refl).
Defined.

(** Which boxes a context makes the template show. *)
Lemma error_box_shown (ctx : Response) :
  In (Lit 205 207) (page_of ctx)
  <-> value_truthy (of_option (error ctx)) = true.
Proof.
  destruct ctx as [res err q l g y].
  unfold page_of, render_template_string. simpl.
  destruct err as [[|c e]|], res as [[|c' r]|]; simpl; split; intros H;
    try reflexivity; try discriminate H;
    repeat (destruct H as [H | H]; try discriminate H); try contradiction;
    auto 20.
Qed.

Lemma result_box_shown (ctx : Response) :
  In (Lit 216 218) (page_of ctx)
  <-> value_truthy (of_option (result ctx)) = true.
Proof.
  destruct ctx as [res err q l g y].
  unfold page_of, render_template_string. simpl.
  destruct err as [[|c e]|], res as [[|c' r]|]; simpl; split; intros H;
    try reflexivity; try discriminate H;
    repeat (destruct H as [H | H]; try discriminate H); try contradiction;
    auto 20.
Qed.

Lemma invitation_shown (ctx : Response) :
  In (Lit 223 227) (page_of ctx)
  <-> value_truthy (of_option (result ctx)) = false.
Proof.
  destruct ctx as [res err q l g y].
  unfold page_of, render_template_string. simpl.
  destruct err as [[|c e]|], res as [[|c' r]|]; simpl; split; intros H;
    try reflexivity; try discriminate H;
    repeat (destruct H as [H | H]; try discriminate H); try contradiction;
    auto 20.
Qed.

(** X13. On every page that [index] returns, for a GET or a POST, the error
    box and the result box are never shown together; and the invitation to
    paste a quote is shown exactly when the result box is not, so an error
    page shows both the error and the invitation. *)
Theorem X13_render_states (SP : string) (w : World) (req : Request)
  (page : Response) :
  result_of (index SP w req) = Ok page ->
  ~ (In (Lit 205 207) (page_of page) /\ In (Lit 216 218) (page_of page))
  /\ (In (Lit 223 227) (page_of page) <-> ~ In (Lit 216 218) (page_of page))
  /\ (In (Lit 205 207) (page_of page) -> In (Lit 223 227) (page_of page)).
Proof.
  intros H.
  assert (X : error page <> None -> result page = None).
  { destruct (method req) eqn:Hm.
    - unfold index in H. rewrite Hm in H. injection H as <-. reflexivity.
    - destruct (index_post_page SP w req page Hm H)
        as (_ & _ & _ & [(msg & _ & _ & R & _) | (E & _)]);
        [intros _; exact R | intros N; contradiction]. }
  rewrite error_box_shown, result_box_shown, invitation_shown.
  destruct (error page) as [msg|]; destruct (result page) as [res|];
    try (specialize (X ltac:(discriminate)); discriminate X); simpl.
  - repeat split; try discriminate; try congruence.
    intros [_ F]. discriminate F.
  - destruct (truthy res); repeat split; try discriminate; try congruence;
      intros; try discriminate; intuition congruence.
  - repeat split; try discriminate; try congruence.
    intros [F _]. discriminate F.
Qed.

Lemma X13_witness :
  result_of (index sample_prompt world_ok post_blank_text)
    = Ok (MkResponse None (Some MSG_PASTE) "" "Hobart TAS" None 2026)
  /\ ~ (In (Lit 205 207)
           (page_of (MkResponse None (Some MSG_PASTE) "" "Hobart TAS" None
                                2026))
        /\ In (Lit 216 218)
              (page_of (MkResponse None (Some MSG_PASTE) "" "Hobart TAS" None
                                   2026)))
  /\ (In (Lit 223 227)
         (page_of (MkResponse None (Some MSG_PASTE) "" "Hobart TAS" None 2026))
      <-> ~ In (Lit 216 218)
               (page_of (MkResponse None (Some MSG_PASTE) "" "Hobart TAS"
                                    None 2026)))
  /\ (In (Lit 205 207)
         (page_of (MkResponse None (Some MSG_PASTE) "" "Hobart TAS" None 2026))
      -> In (Lit 223 227)
            (page_of (MkResponse None (Some MSG_PASTE) "" "Hobart TAS" None
                                 2026))).
Proof.
  split; [reflexivity|].
  apply (X13_render_states sample_prompt world_ok post_blank_text).
  reflexivity.
Defined.

Lemma or_else_some (s : string) : or_else (Some s) "" = s.
Proof. destruct s; reflexivity. Qed.

(** X14. The values that a POST page carries back are stable: a form that is
    submitted again with the location and the pasted text just as they were
    redisplayed is collected to the very same values (they are already
    trimmed). *)
Theorem X14_redisplayed_values_stable (SP : string) (w : World)
  (req again : Request) (page : Response) :
  method req = POST ->
  result_of (index SP w req) = Ok page ->
  form_get again "location" = Some (location page) ->
  form_get again "quote_text" = Some (quote_text page) ->
  location_of again = location page
  /\ quote_text_of again = quote_text page
  /\ strip (location page) = location page
  /\ strip (quote_text page) = quote_text page.
Proof.
  intros Hm H Hl Hq.
  destruct (index_post_page SP w req page Hm H) as (L & Q & _).
  unfold location_of, quote_text_of in *.
  rewrite Hl, Hq, !or_else_some, L, Q, !strip_twice. auto.
Qed.

Lemma X14_witness :
  (method post_text = POST
   /\ result_of (index sample_prompt world_blank_key post_text)
      = Ok (MkResponse None (Some MSG_NO_KEY) "Replace tap, $240 incl GST"
                       "Hobart TAS" None 2026)
   /\ form_get (sample_post "" "Hobart TAS" "Replace tap, $240 incl GST" None)
               "location" = Some "Hobart TAS"
   /\ form_get (sample_post "" "Hobart TAS" "Replace tap, $240 incl GST" None)
               "quote_text" = Some "Replace tap, $240 incl GST")
  /\ location_of (sample_post "" "Hobart TAS" "Replace tap, $240 incl GST"
                              None) = "Hobart TAS"
  /\ quote_text_of (sample_post "" "Hobart TAS" "Replace tap, $240 incl GST"
                                None) = "Replace tap, $240 incl GST"
  /\ strip "Hobart TAS" = "Hobart TAS"
  /\ strip "Replace tap, $240 incl GST" = "Replace tap, $240 incl GST".
Proof.
  split; [repeat split|].
  exact (X14_redisplayed_values_stable sample_prompt world_blank_key post_text
           (sample_post "" "Hobart TAS" "Replace tap, $240 incl GST" None)
           (MkResponse None (Some MSG_NO_KEY) "Replace tap, $240 incl GST"
                       "Hobart TAS" None 2026)
           eq_refl eq_refl eq_refl eq_refl).
Defined.

(** X15. A PDF alone is enough. With no pasted text, an allowed upload that
    is stored and read, at least one page with text, and a credential, the
    request makes the six calls in order, and the completion service gets the
    message with "(not provided)" under QUOTE TEXT and the non-empty text of
    the PDF under PDF EXTRACTED TEXT. *)
Theorem X15_pdf_alone_suffices (SP : string) (w : World) (req : Request)
  (f : FileStorage) (texts : list (option string)) :
  method req = POST ->
  quote_text_of req = "" ->
  files_get req "quote_pdf" = Some f ->
  allowed_file (filename f) = true ->
  save w f (save_path_of w f) = Ok tt ->
  readable w (save_path_of w f) texts ->
  forallb blank_page texts = false ->
  api_key_of w <> "" ->
  OpenAI w (api_key_of w) = Ok tt ->
  exists pdf_text,
    pdf_text = re_sub_newlines (strip (join NL (kept_texts texts)))
    /\ pdf_text <> ""
    /\ trace_of (index SP w req)
       = (upload_calls (save_path_of w f)
          ++ model_calls SP (api_key_of w)
               ("Trade: " ++ or_placeholder (trade_of req) "Not provided"
                ++ NL
                ++ "Location: "
                ++ or_placeholder (location_of req) "Not provided" ++ NL
                ++ NL
                ++ "QUOTE TEXT:" ++ NL ++ "(not provided)" ++ NL
                ++ NL
                ++ "PDF EXTRACTED TEXT:" ++ NL ++ pdf_text))%list.
Proof.
  intros Hm Hq Hf Ha Hs Hr Hb Hk Ho.
  set (pdf_text := re_sub_newlines (strip (join NL (kept_texts texts)))).
  assert (Np : pdf_text <> "").
  { intros E. apply joined_text_empty in E. congruence. }
  exists pdf_text. split; [reflexivity|]. split; [exact Np|].
  assert (N : truthy (filename f) = true)
    by (destruct (filename f); [discriminate Ha | reflexivity]).
  assert (U : upload_block w req (quote_text_of req) (location_of req)
              = (Ok (Fell pdf_text), upload_calls (save_path_of w f))).
  { unfold upload_block, file_truthy, call, bind.
    rewrite Hf, N, Ha. simpl andb. simpl negb. cbv iota.
    fold (save_path_of w f). rewrite Hs.
    rewrite (extract_readable w (save_path_of w f) texts Hr). reflexivity. }
  rewrite (index_post SP w req Hm), U. unfold trace_of at 1. simpl snd.
  f_equal.
  destruct (after_upload_cases SP w (trade_of req) (location_of req)
              (quote_text_of req) pdf_text)
    as [(_ & P & _) | [(_ & K & _) | [(_ & _ & e & O & _)
       | (_ & _ & _ & E)]]];
    [contradiction | contradiction | congruence |].
  rewrite E. unfold trace_of. simpl snd. f_equal.
  unfold user_payload. rewrite Hq, !str_or_placeholder.
  destruct pdf_text; [contradiction | reflexivity].
Qed.

Lemma X15_witness :
  (method post_pdf_only = POST
   /\ quote_text_of post_pdf_only = ""
   /\ files_get post_pdf_only "quote_pdf" = Some (MkFile "quote.pdf" "%PDF-1.7")
   /\ allowed_file "quote.pdf" = true
   /\ readable world_two_pages "uploads/quote.pdf" [Some "A"; None; Some "B"]
   /\ forallb blank_page [Some "A"; None; Some "B"] = false
   /\ api_key_of world_two_pages <> "")
  /\ exists pdf_text,
       pdf_text = re_sub_newlines
                    (strip (join NL (kept_texts [Some "A"; None; Some "B"])))
       /\ pdf_text <> ""
       /\ trace_of (index sample_prompt world_two_pages post_pdf_only)
          = (upload_calls (save_path_of world_two_pages
                                        (MkFile "quote.pdf" "%PDF-1.7"))
             ++ model_calls sample_prompt (api_key_of world_two_pages)
                  ("Trade: "
                   ++ or_placeholder (trade_of post_pdf_only) "Not provided"
                   ++ NL
                   ++ "Location: "
                   ++ or_placeholder (location_of post_pdf_only)
                        "Not provided" ++ NL
                   ++ NL
                   ++ "QUOTE TEXT:" ++ NL ++ "(not provided)" ++ NL
                   ++ NL
                   ++ "PDF EXTRACTED TEXT:" ++ NL ++ pdf_text))%list.
Proof.
  assert (R : readable world_two_pages "uploads/quote.pdf"
                       [Some "A"; None; Some "B"]) by (split; reflexivity).
  assert (K : api_key_of world_two_pages <> "") by discriminate.
  split; [repeat split; auto|].
  exact (X15_pdf_alone_suffices sample_prompt world_two_pages post_pdf_only
           (MkFile "quote.pdf" "%PDF-1.7") [Some "A"; None; Some "B"]
           eq_refl eq_refl eq_refl eq_refl eq_refl R eq_refl K eq_refl).
Defined.

(** X16. Pasted text that is missing or made of whitespace only counts as no
    text: without a usable file part the request is rejected with the
    "Please paste quote text" page and no external call is made at all, not
    even a look at the credential. *)
Theorem X16_whitespace_text_is_no_text (SP : string) (w : World)
  (req : Request) :
  method req = POST ->
  form_get req "quote_text" = None
  \/ (exists raw, form_get req "quote_text" = Some raw
                  /\ all_space raw = true) ->
  files_get req "quote_pdf" = None
  \/ (exists f, files_get req "quote_pdf" = Some f /\ filename f = "") ->
  index SP w req
  = (Ok (render w None (Some MSG_PASTE) "" (location_of req) None), []).
Proof.
  intros Hm Hq Hf.
  assert (Q : quote_text_of req = "").
  { unfold quote_text_of. destruct Hq as [-> | (raw & -> & S)];
      [reflexivity|].
    rewrite or_else_some. apply strip_all_space. exact S. }
  rewrite (index_no_usable_file SP w req Hm Hf).
  unfold after_upload. rewrite Q. reflexivity.
Qed.

Lemma X16_witness :
  (method post_blank_text = POST
   /\ form_get post_blank_text "quote_text" = Some "   "
   /\ all_space "   " = true
   /\ files_get post_blank_text "quote_pdf" = None)
  /\ index sample_prompt world_ok post_blank_text
     = (Ok (render world_ok None (Some MSG_PASTE) ""
                   (location_of post_blank_text) None), []).
Proof.
  split; [repeat split|].
  apply (X16_whitespace_text_is_no_text sample_prompt world_ok
           post_blank_text);
    [reflexivity | right; exists "   "; split; reflexivity
    | left; reflexivity].
Defined.

Lemma kept_texts_app (a b : list (option string)) :
  kept_texts (a ++ b) = (kept_texts a ++ kept_texts b)%list.
Proof. unfold kept_texts. rewrite map_app, filter_app. reflexivity. Qed.

(** X17. A blank page leaves no mark: a readable PDF with a blank page
    somewhere gives the same text as the PDF without that page; no separator
    is added for it. *)
Theorem X17_blank_page_leaves_no_gap (w w' : World) (path path' : string)
  (before after : list (option string)) (blank : option string) :
  blank_page blank = true ->
  readable w path (before ++ blank :: after) ->
  readable w' path' (before ++ after) ->
  result_of (try_extract_pdf_text w path)
  = result_of (try_extract_pdf_text w' path').
Proof.
  intros Hb Hr Hr'.
  rewrite (extract_readable w path _ Hr), (extract_readable w' path' _ Hr').
  unfold result_of. simpl fst.
  rewrite !kept_texts_app.
  change (blank :: after) with ([blank] ++ after)%list.
  rewrite kept_texts_app.
  assert (K : kept_texts [blank] = []).
  { apply kept_texts_empty. simpl. rewrite Hb. reflexivity. }
  rewrite K. reflexivity.
Qed.

Lemma X17_witness :
  (blank_page None = true
   /\ readable world_two_pages "uploads/quote.pdf"
               ([Some "A"] ++ None :: [Some "B"])
   /\ readable (sample_world (Ok [Ok (Some "A"); Ok (Some "B")]) None (Ok ""))
               "uploads/other.pdf" ([Some "A"] ++ [Some "B"]))
  /\ result_of (try_extract_pdf_text world_two_pages "uploads/quote.pdf")
     = result_of (try_extract_pdf_text
                    (sample_world (Ok [Ok (Some "A"); Ok (Some "B")]) None
                                  (Ok ""))
                    "uploads/other.pdf").
Proof.
  assert (R : readable world_two_pages "uploads/quote.pdf"
                       ([Some "A"] ++ None :: [Some "B"]))
    by (split; reflexivity).
  assert (R' : readable
                 (sample_world (Ok [Ok (Some "A"); Ok (Some "B")]) None
                               (Ok ""))
                 "uploads/other.pdf" ([Some "A"] ++ [Some "B"]))
    by (split; reflexivity).
  split; [repeat split; auto|].
  exact (X17_blank_page_leaves_no_gap _ _ _ _ [Some "A"] [Some "B"] None
           eq_refl R R').
Defined.
